(** * Checkout and cancellation of the e-commerce backend

    Shallow embedding of [createOrder] and [cancelOrder]
    (src/controllers/paymentController.js, lines 392-632), of
    [updateOrderStatus] and [processCOD] from the same file, and of
    [getCart], [addToCart] and [mergeCart]
    (src/controllers/cartController.js) over a model of the document
    store.  Every [await] of a Mongoose call is one store
    operation; the store is passed explicitly.  JavaScript numbers used as
    money are modelled as exact rationals ([Q]); quantities and stock are
    integers ([Z]).  Floating-point rounding is not modelled. *)

From Stdlib Require Import QArith Qminmax ZArith String Ascii List Lia.
From stdpp Require Import base gmap strings list.

Import ListNotations.
Open Scope Z_scope.

(** ** JavaScript helpers *)

(** Truthiness of an optional request string: [undefined] and [""] are
    falsy. *)
Definition js_truthy_str (o : option string) : bool :=
  match o with
  | Some s => negb (String.eqb s "")
  | None => false
  end.

(** [String.prototype.toUpperCase], restricted to ASCII letters. *)
Definition ascii_upper (a : ascii) : ascii :=
  let n := nat_of_ascii a in
  if (97 <=? n)%nat && (n <=? 122)%nat then ascii_of_nat (n - 32) else a.

Fixpoint to_upper (s : string) : string :=
  match s with
  | EmptyString => EmptyString
  | String a r => String (ascii_upper a) (to_upper r)
  end.

(** Truthiness of an optional number ([undefined], [null] and [0] are
    falsy). *)
Definition js_truthy_Q (o : option Q) : bool :=
  match o with
  | Some q => negb (Qeq_bool q 0)
  | None => false
  end.

Definition js_truthy_Z (o : option Z) : bool :=
  match o with
  | Some z => negb (z =? 0)
  | None => false
  end.

(** ** Data model (src/models, src/unnamed/part_002) *)

(** models/Product.js *)
Record Product := mkProduct {
  p_title : string;
  p_images : list string;
  p_price : Q;
  p_discountPrice : option Q;
  p_stock : Z;
  p_isActive : bool
}.

(** models/Cart.js *)
Record CartItem := mkCartItem {
  ci_productId : nat;
  ci_quantity : Z;
  ci_price : Q
}.

Record Cart := mkCart {
  cart_userId : nat;
  cart_items : list CartItem;
  cart_totalPrice : Q
}.

(** Modelled from the spec: models/Coupon.js is not among the sources; the
    fields are those of the Coupon entity of the spec (section 3), with the
    types [createOrder] reads them at. *)
Record Coupon := mkCoupon {
  c_code : string;
  c_discountType : string;
  c_discountValue : Q;
  c_minPurchaseAmount : Q;
  c_maxDiscountAmount : option Q;
  c_validFrom : Z;
  c_validUntil : Z;
  c_usageLimit : option Z;
  c_usedCount : Z;
  c_isActive : bool
}.

(** models/Order.js (src/unnamed/part_002) *)
Inductive OrderStatus :=
  OSPending | OSConfirmed | OSProcessing | OSShipped | OSDelivered | OSCancelled.

Inductive PaymentStatus := PSPending | PSPaid | PSFailed | PSRefunded.

Record OrderItem := mkOrderItem {
  oi_productId : nat;
  oi_title : string;
  oi_quantity : Z;
  oi_price : Q;
  oi_image : option string
}.

Record Order := mkOrder {
  o_userId : nat;
  o_items : list OrderItem;
  o_totalPrice : Q;
  o_discount : Q;
  o_couponCode : option string;
  o_paymentStatus : PaymentStatus;
  o_orderStatus : OrderStatus;
  o_paymentMethod : string;
  o_paymentId : option nat
}.

(** models/Payment.js *)
Inductive PayStatus :=
  PayPending | PayProcessing | PayCompleted | PayFailed | PayRefunded | PayCancelled.

Record Payment := mkPayment {
  pay_orderId : nat;
  pay_userId : nat;
  pay_amount : Q;
  pay_method : string;
  pay_status : PayStatus
}.

(** models/Notification.js (src/unnamed/part_003) *)
Record Notification := mkNotification {
  n_userId : nat;
  n_type : string;
  n_orderId : nat
}.

(** The writes of the store, in the order they are performed, and the
    console output of the email fallback. *)
Inductive Event :=
  | EvOrderCreated (oid : nat)
  | EvCouponSaved (code : string)
  | EvStockInc (pid : nat) (delta : Z)
  | EvCartSaved (uid : nat)
  | EvPaymentCreated (pid : nat)
  | EvOrderSaved (oid : nat)
  | EvPaymentUpdated (pid : nat)
  | EvNotificationCreated (oid : nat)
  | EvEmailSent
  | EvEmailFailureLogged.

(** The collections.  Carts are keyed by their (unique) [userId], coupons
    by their code; [st_nextId] hands out fresh document ids. *)
Record Store := mkStore {
  st_products : gmap nat Product;
  st_carts : gmap nat Cart;
  st_coupons : gmap string Coupon;
  st_orders : gmap nat Order;
  st_payments : gmap nat Payment;
  st_notifications : list Notification;
  st_nextId : nat;
  st_log : list Event
}.

Definition set_products (m : gmap nat Product) (s : Store) : Store :=
  mkStore m (st_carts s) (st_coupons s) (st_orders s) (st_payments s)
    (st_notifications s) (st_nextId s) (st_log s).
Definition set_carts (m : gmap nat Cart) (s : Store) : Store :=
  mkStore (st_products s) m (st_coupons s) (st_orders s) (st_payments s)
    (st_notifications s) (st_nextId s) (st_log s).
Definition set_coupons (m : gmap string Coupon) (s : Store) : Store :=
  mkStore (st_products s) (st_carts s) m (st_orders s) (st_payments s)
    (st_notifications s) (st_nextId s) (st_log s).
Definition set_orders (m : gmap nat Order) (s : Store) : Store :=
  mkStore (st_products s) (st_carts s) (st_coupons s) m (st_payments s)
    (st_notifications s) (st_nextId s) (st_log s).
Definition set_payments (m : gmap nat Payment) (s : Store) : Store :=
  mkStore (st_products s) (st_carts s) (st_coupons s) (st_orders s) m
    (st_notifications s) (st_nextId s) (st_log s).
Definition set_notifications (l : list Notification) (s : Store) : Store :=
  mkStore (st_products s) (st_carts s) (st_coupons s) (st_orders s)
    (st_payments s) l (st_nextId s) (st_log s).
Definition bump_id (s : Store) : Store :=
  mkStore (st_products s) (st_carts s) (st_coupons s) (st_orders s)
    (st_payments s) (st_notifications s) (S (st_nextId s)) (st_log s).
Definition log_event (e : Event) (s : Store) : Store :=
  mkStore (st_products s) (st_carts s) (st_coupons s) (st_orders s)
    (st_payments s) (st_notifications s) (st_nextId s) (st_log s ++ [e]).

(** ** Outcomes *)

(** The errors [createOrder] and [cancelOrder] end with.  [ErrNullProductRef]
    is the [TypeError] of reading [cartItem.productId._id] when the populated
    product is [null]; [ErrValidation] is a Mongoose validation error;
    [ErrNotification] is an error thrown by [sendNotification]. *)
Inductive CheckoutError :=
  | ErrEmptyCart
  | ErrNullProductRef
  | ErrProductUnavailable (title : string)
  | ErrInsufficientStock (title : string) (available : Z)
  | ErrCouponNotFound
  | ErrCouponExhausted
  | ErrMinPurchase (minimum : Q)
  | ErrValidation
  | ErrNotification
  | ErrOrderNotFound
  | ErrAlreadyCancelled
  | ErrNotCancellable.

(** Response of a handler: success (with the id of the order) or the error
    passed to [next]. *)
Inductive Outcome :=
  | Success (oid : nat)
  | Failure (e : CheckoutError).

Inductive res (A : Type) :=
  | ROk (a : A)
  | RErr (e : CheckoutError).
Arguments ROk {A} a.
Arguments RErr {A} e.

(** ** createOrder (paymentController.js, lines 395-536) *)

(** [const itemPrice = product.discountPrice || product.price]. *)
Definition effective_price (p : Product) : Q :=
  match p_discountPrice p with
  | Some d => if js_truthy_Q (Some d) then d else p_price p
  | None => p_price p
  end.

(** The stock-verification loop (lines 410-432).  The cart is loaded with
    [populate('items.productId')], so [cartItem.productId] is the product
    document or [null]; [Product.findById] then reloads it. *)
Fixpoint check_items (prods : gmap nat Product) (items : list CartItem)
    (totalPrice : Q) (orderItems : list OrderItem) : res (list OrderItem * Q) :=
  match items with
  | [] => ROk (orderItems, totalPrice)
  | cartItem :: rest =>
      match prods !! ci_productId cartItem with
      | None => RErr ErrNullProductRef
      | Some populated =>
          match prods !! ci_productId cartItem with
          | None => RErr (ErrProductUnavailable (p_title populated))
          | Some product =>
              if negb (p_isActive product) then
                RErr (ErrProductUnavailable (p_title populated))
              else if p_stock product <? ci_quantity cartItem then
                RErr (ErrInsufficientStock (p_title product) (p_stock product))
              else
                let itemPrice := effective_price product in
                let itemTotal := (itemPrice * inject_Z (ci_quantity cartItem))%Q in
                check_items prods rest (totalPrice + itemTotal)%Q
                  (orderItems ++ [mkOrderItem (ci_productId cartItem)
                                    (p_title product) (ci_quantity cartItem)
                                    itemPrice (head (p_images product))])
          end
      end
  end.

(** [Coupon.findOne({code: couponCode.toUpperCase(), isActive: true,
    validFrom: {$lte: now}, validUntil: {$gte: now}})]. *)
Definition find_coupon (cs : gmap string Coupon) (code : string) (now : Z)
    : option Coupon :=
  match cs !! to_upper code with
  | Some c =>
      if c_isActive c && (c_validFrom c <=? now) && (now <=? c_validUntil c)
      then Some c else None
  | None => None
  end.

(** [coupon.usageLimit && coupon.usedCount >= coupon.usageLimit]. *)
Definition limit_reached (c : Coupon) : bool :=
  js_truthy_Z (c_usageLimit c) &&
  match c_usageLimit c with
  | Some l => l <=? c_usedCount c
  | None => false
  end.

(** Lines 458-465. *)
Definition coupon_discount (c : Coupon) (totalPrice : Q) : Q :=
  if String.eqb (c_discountType c) "percentage" then
    let d := (totalPrice * c_discountValue c / 100)%Q in
    match c_maxDiscountAmount c with
    | Some m => if js_truthy_Q (Some m) then Qmin d m else d
    | None => d
    end
  else c_discountValue c.

(** Lines 435-468: the discount and the coupon document (with the key it
    was found under). *)
Definition apply_coupon (cs : gmap string Coupon) (couponCode : option string)
    (now : Z) (totalPrice : Q) : res (Q * option (string * Coupon)) :=
  match couponCode with
  | Some code =>
      if js_truthy_str couponCode then
        match find_coupon cs code now with
        | None => RErr ErrCouponNotFound
        | Some c =>
            if limit_reached c then RErr ErrCouponExhausted
            else if negb (Qle_bool (c_minPurchaseAmount c) totalPrice) then
              RErr (ErrMinPurchase (c_minPurchaseAmount c))
            else ROk (coupon_discount c totalPrice, Some (to_upper code, c))
        end
      else ROk (0%Q, None)
  | None => ROk (0%Q, None)
  end.

(** [req.body] of the handler ([shippingAddress] and [notes] are copied
    into the order unchanged and are left out), the authenticated user,
    and the clock. *)
Record OrderInput := mkOrderInput {
  in_userId : nat;
  in_paymentMethod : option string;
  in_couponCode : option string;
  in_now : Z
}.

(** The two best-effort effects that can fail independently of the store:
    [Notification.create] inside [sendNotification] and [sendEmail]. *)
Record Env := mkEnv {
  env_notify_fails : bool;
  env_email_fails : bool
}.

(** What steps 1-3 (lines 398-468) compute: the loaded cart, the order
    items, the discounted [totalPrice], the discount and the coupon. *)
Record Plan := mkPlan {
  pl_cart : Cart;
  pl_items : list OrderItem;
  pl_total : Q;
  pl_discount : Q;
  pl_coupon : option (string * Coupon)
}.

(** Steps 1-3 of [createOrder]: reads only. *)
Definition checkout_validate (inp : OrderInput) (s : Store) : res Plan :=
  match st_carts s !! in_userId inp with
  | None => RErr ErrEmptyCart
  | Some cart =>
      match cart_items cart with
      | [] => RErr ErrEmptyCart
      | _ :: _ =>
          match check_items (st_products s) (cart_items cart) 0%Q [] with
          | RErr e => RErr e
          | ROk (orderItems, totalPrice) =>
              match apply_coupon (st_coupons s) (in_couponCode inp) (in_now inp)
                      totalPrice with
              | RErr e => RErr e
              | ROk (discount, coupon) =>
                  ROk (mkPlan cart orderItems (totalPrice - discount)%Q discount coupon)
              end
          end
      end
  end.

(** Field updates used by the writes. *)
Definition add_stock (delta : Z) (p : Product) : Product :=
  mkProduct (p_title p) (p_images p) (p_price p) (p_discountPrice p)
    (p_stock p + delta) (p_isActive p).

Definition set_usedCount (n : Z) (c : Coupon) : Coupon :=
  mkCoupon (c_code c) (c_discountType c) (c_discountValue c)
    (c_minPurchaseAmount c) (c_maxDiscountAmount c) (c_validFrom c)
    (c_validUntil c) (c_usageLimit c) n (c_isActive c).

Definition set_paymentId (pid : nat) (o : Order) : Order :=
  mkOrder (o_userId o) (o_items o) (o_totalPrice o) (o_discount o)
    (o_couponCode o) (o_paymentStatus o) (o_orderStatus o)
    (o_paymentMethod o) (Some pid).

Definition set_pay_status (st : PayStatus) (p : Payment) : Payment :=
  mkPayment (pay_orderId p) (pay_userId p) (pay_amount p) (pay_method p) st.

(** [cart.save()] runs the pre-save hook of models/Cart.js, which
    recomputes [totalPrice]. *)
Definition cart_save (c : Cart) : Cart :=
  mkCart (cart_userId c) (cart_items c)
    (fold_left (fun t it => t + ci_price it * inject_Z (ci_quantity it))%Q
       (cart_items c) 0%Q).

Definition clear_items (c : Cart) : Cart :=
  mkCart (cart_userId c) [] (cart_totalPrice c).

(** The [enum] of [paymentMethod] in the Order schema and of [method] in
    the Payment schema. *)
Definition valid_method (m : string) : bool :=
  existsb (String.eqb m) ["card"; "COD"; "PayPal"; "stripe"].

(** [paymentMethod || 'COD']. *)
Definition method_or_cod (pm : option string) : string :=
  match pm with
  | Some m => if js_truthy_str pm then m else "COD"
  | None => "COD"
  end.

(** The validators [Order.create] runs: [totalPrice] and [discount] have
    [min: 0], [paymentMethod] an enum, each item [quantity] [min: 1]. *)
Definition order_valid (o : Order) : bool :=
  Qle_bool 0 (o_totalPrice o) && Qle_bool 0 (o_discount o) &&
  valid_method (o_paymentMethod o) &&
  forallb (fun oi => 1 <=? oi_quantity oi) (o_items o).

(** The validators [Payment.create] runs: [amount] has [min: 0], [method] an
    enum. *)
Definition payment_valid (p : Payment) : bool :=
  Qle_bool 0 (pay_amount p) && valid_method (pay_method p).

(** [Product.findByIdAndUpdate(id, {$inc: {stock: delta}})]: atomic on the
    one document, no validators, nothing happens for a missing id. *)
Definition inc_stock (pid : nat) (delta : Z) (s : Store) : Store :=
  log_event (EvStockInc pid delta)
    (set_products (alter (add_stock delta) pid (st_products s)) s).

(** Lines 489-493. *)
Fixpoint reduce_stock (items : list OrderItem) (s : Store) : Store :=
  match items with
  | [] => s
  | item :: rest => reduce_stock rest (inc_stock (oi_productId item) (- oi_quantity item) s)
  end.

Definition option_str_eqb (o : option string) (t : string) : bool :=
  match o with Some m => String.eqb m t | None => false end.

(** Steps 4-10 of [createOrder] (lines 470-535), run on the store as it is
    when they start. *)
Definition checkout_commit (env : Env) (inp : OrderInput) (plan : Plan)
    (s : Store) : Store * Outcome :=
  let uid := in_userId inp in
  let order := mkOrder uid (pl_items plan) (pl_total plan) (pl_discount plan)
      (if js_truthy_str (in_couponCode inp)
       then option_map to_upper (in_couponCode inp) else None)
      PSPending OSPending (method_or_cod (in_paymentMethod inp)) None in
  (* Order.create *)
  if negb (order_valid order) then (s, Failure ErrValidation) else
  let oid := st_nextId s in
  let s1 := log_event (EvOrderCreated oid)
      (bump_id (set_orders (<[oid := order]> (st_orders s)) s)) in
  (* coupon.usedCount += 1; coupon.save() *)
  let s2 := match pl_coupon plan with
      | Some (code, coupon) =>
          log_event (EvCouponSaved code)
            (set_coupons (alter (set_usedCount (c_usedCount coupon + 1)) code
                            (st_coupons s1)) s1)
      | None => s1
      end in
  (* Reduce stock *)
  let s3 := reduce_stock (pl_items plan) s2 in
  (* cart.items = []; cart.save() *)
  let s4 := log_event (EvCartSaved uid)
      (set_carts (<[uid := cart_save (clear_items (pl_cart plan))]> (st_carts s3)) s3) in
  (* Payment.create *)
  let payment := mkPayment oid uid (pl_total plan)
      (method_or_cod (in_paymentMethod inp))
      (if option_str_eqb (in_paymentMethod inp) "COD" then PayPending else PayProcessing) in
  if negb (payment_valid payment) then (s4, Failure ErrValidation) else
  let pid := st_nextId s4 in
  let s5 := log_event (EvPaymentCreated pid)
      (bump_id (set_payments (<[pid := payment]> (st_payments s4)) s4)) in
  (* order.paymentId = payment._id; order.save() *)
  let s6 := log_event (EvOrderSaved oid)
      (set_orders (<[oid := set_paymentId pid order]> (st_orders s5)) s5) in
  (* await sendNotification(...): not guarded, an error goes to next *)
  if env_notify_fails env then (s6, Failure ErrNotification) else
  let s7 := log_event (EvNotificationCreated oid)
      (set_notifications (st_notifications s6 ++ [mkNotification uid "order_placed" oid]) s6) in
  (* try { await sendEmail(...) } catch { console.error(...) } *)
  let s8 := if env_email_fails env then log_event EvEmailFailureLogged s7
            else log_event EvEmailSent s7 in
  (s8, Success oid).

Definition createOrder (env : Env) (inp : OrderInput) (s : Store) : Store * Outcome :=
  match checkout_validate inp s with
  | RErr e => (s, Failure e)
  | ROk plan => checkout_commit env inp plan s
  end.

(** ** cancelOrder (paymentController.js, lines 589-632) *)

Definition cancellable_check (st : OrderStatus) : option CheckoutError :=
  match st with
  | OSCancelled => Some ErrAlreadyCancelled
  | OSShipped | OSDelivered => Some ErrNotCancellable
  | _ => None
  end.

Definition set_cancelled (o : Order) : Order :=
  mkOrder (o_userId o) (o_items o) (o_totalPrice o) (o_discount o)
    (o_couponCode o)
    (match o_paymentStatus o with PSPaid => PSRefunded | ps => ps end)
    OSCancelled (o_paymentMethod o) (o_paymentId o).

(** Lines 608-612. *)
Fixpoint restore_stock (items : list OrderItem) (s : Store) : Store :=
  match items with
  | [] => s
  | item :: rest => restore_stock rest (inc_stock (oi_productId item) (oi_quantity item) s)
  end.

Definition cancelOrder (oid uid : nat) (s : Store) : Store * Outcome :=
  match st_orders s !! oid with
  | Some order =>
      if Nat.eqb (o_userId order) uid then
        match cancellable_check (o_orderStatus order) with
        | Some e => (s, Failure e)
        | None =>
            let s1 := restore_stock (o_items order) s in
            let order' := set_cancelled order in
            let s2 := log_event (EvOrderSaved oid)
                (set_orders (<[oid := order']> (st_orders s1)) s1) in
            match o_paymentId order' with
            | Some pid =>
                (log_event (EvPaymentUpdated pid)
                   (set_payments (alter (set_pay_status PayRefunded) pid
                                    (st_payments s2)) s2), Success oid)
            | None => (s2, Success oid)
            end
        end
      else (s, Failure ErrOrderNotFound)
  | None => (s, Failure ErrOrderNotFound)
  end.

(** ** Two concurrent checkouts

    Node interleaves handlers at every [await].  A schedule in which each
    handler runs its reads (steps 1-3) without interruption and its writes
    (steps 4-10) without interruption is one of the schedules the server
    can produce; [race_step] interleaves handlers at that grain. *)

Inductive Thread :=
  | TStart (inp : OrderInput)
  | TValidated (inp : OrderInput) (plan : Plan)
  | TDone (out : Outcome).

Definition thread_step (env : Env) (t : Thread) (s : Store) : option (Store * Thread) :=
  match t with
  | TStart inp =>
      match checkout_validate inp s with
      | RErr e => Some (s, TDone (Failure e))
      | ROk plan => Some (s, TValidated inp plan)
      end
  | TValidated inp plan =>
      let '(s', out) := checkout_commit env inp plan s in Some (s', TDone out)
  | TDone _ => None
  end.

Record Config := mkConfig {
  cf_store : Store;
  cf_a : Thread;
  cf_b : Thread
}.

Inductive race_step (env : Env) : Config -> Config -> Prop :=
  | race_step_a s a b s' a' :
      thread_step env a s = Some (s', a') ->
      race_step env (mkConfig s a b) (mkConfig s' a' b)
  | race_step_b s a b s' b' :
      thread_step env b s = Some (s', b') ->
      race_step env (mkConfig s a b) (mkConfig s' a b').

Inductive race_steps (env : Env) : Config -> Config -> Prop :=
  | race_refl c : race_steps env c c
  | race_trans c1 c2 c3 :
      race_step env c1 c2 -> race_steps env c2 c3 -> race_steps env c1 c3.

(** ** Schema invariants of the store

    [price] and [discountPrice] have [min: 0] (models/Product.js), cart
    quantities [min: 1] (models/Cart.js), and the id counter is past every
    existing order and payment id. *)
Definition wf_store (s : Store) : Prop :=
  (forall id p, st_products s !! id = Some p ->
     (0 <= p_price p)%Q /\ (forall d, p_discountPrice p = Some d -> (0 <= d)%Q)) /\
  (forall uid c, st_carts s !! uid = Some c ->
     Forall (fun ci => 1 <= ci_quantity ci) (cart_items c)) /\
  (forall k, (st_nextId s <= k)%nat ->
     st_orders s !! k = None /\ st_payments s !! k = None).

(** Sum over the cart of the unit price times the quantity. *)
Definition items_total (prods : gmap nat Product) (items : list CartItem) : Q :=
  fold_right (fun ci acc =>
    match prods !! ci_productId ci with
    | Some p => (effective_price p * inject_Z (ci_quantity ci) + acc)%Q
    | None => acc
    end) 0%Q items.

(** Total quantity of product [pid] in a list of cart or order items. *)
Definition cart_qty (pid : nat) (items : list CartItem) : Z :=
  fold_right (fun ci acc =>
    (if Nat.eqb (ci_productId ci) pid then ci_quantity ci else 0) + acc) 0 items.

Definition order_qty (pid : nat) (items : list OrderItem) : Z :=
  fold_right (fun oi acc =>
    (if Nat.eqb (oi_productId oi) pid then oi_quantity oi else 0) + acc) 0 items.

Definition available (prods : gmap nat Product) (ci : CartItem) : Prop :=
  exists p, prods !! ci_productId ci = Some p /\ p_isActive p = true /\
            ci_quantity ci <= p_stock p.

(** How an order item is built from a cart item. *)
Definition item_snapshot (prods : gmap nat Product) (ci : CartItem) (oi : OrderItem) : Prop :=
  oi_productId oi = ci_productId ci /\ oi_quantity oi = ci_quantity ci /\
  exists p, prods !! ci_productId ci = Some p /\ oi_price oi = effective_price p.

(** Everything but the products and the log is left alone. *)
Definition same_but_products (s s' : Store) : Prop :=
  st_carts s' = st_carts s /\ st_coupons s' = st_coupons s /\
  st_orders s' = st_orders s /\ st_payments s' = st_payments s /\
  st_notifications s' = st_notifications s /\ st_nextId s' = st_nextId s.

(** Sum of [price * quantity] over order items. *)
Definition order_items_total (ois : list OrderItem) : Q :=
  fold_right (fun oi acc => (oi_price oi * inject_Z (oi_quantity oi) + acc)%Q) 0%Q ois.

(** ** Sample data *)

Definition ex_env : Env := mkEnv false false.
Definition ex_env_notify_down : Env := mkEnv true false.

Definition ex_mouse : Product := mkProduct "Mouse" ["mouse.png"] 15%Q None 5 true.
Definition ex_cart : Cart := mkCart 7 [mkCartItem 1 2 15%Q] 30%Q.
Definition ex_flat50 : Coupon :=
  mkCoupon "FLAT50" "fixed" 50%Q 0%Q None 0 100 None 0 true.
Definition ex_once : Coupon :=
  mkCoupon "ONCE" "percentage" 10%Q 0%Q None 0 5 (Some 1) 1 true.

Definition ex_store : Store :=
  mkStore {[1%nat := ex_mouse]} {[7%nat := ex_cart]}
    (<["FLAT50" := ex_flat50]> {["ONCE" := ex_once]}) ∅ ∅ [] 100 [].

Definition ex_plain : OrderInput := mkOrderInput 7 None None 10.
Definition ex_card : OrderInput := mkOrderInput 7 (Some "card") None 10.
Definition ex_flat_inp : OrderInput := mkOrderInput 7 (Some "card") (Some "flat50") 10.
Definition ex_bitcoin : OrderInput := mkOrderInput 7 (Some "bitcoin") None 10.
Definition ex_once_inp : OrderInput := mkOrderInput 7 None (Some "once") 10.

(** A cart whose product has since been deleted from the catalogue. *)
Definition ex_store_deleted : Store :=
  mkStore {[1%nat := ex_mouse]} {[7%nat := mkCart 7 [mkCartItem 2 1 9%Q] 9%Q]}
    ∅ ∅ ∅ [] 100 [].

(** A product whose [discountPrice] is set to [0]. *)
Definition ex_free_mouse : Product := mkProduct "Mouse" ["mouse.png"] 15%Q (Some 0%Q) 5 true.
Definition ex_store_free : Store :=
  mkStore {[1%nat := ex_free_mouse]} {[7%nat := ex_cart]} ∅ ∅ ∅ [] 100 [].

(** Two users each asking for the whole stock of product 1. *)
Definition ex_race_store : Store :=
  mkStore {[1%nat := ex_mouse]}
    (<[7%nat := mkCart 7 [mkCartItem 1 5 15%Q] 75%Q]>
       {[8%nat := mkCart 8 [mkCartItem 1 5 15%Q] 75%Q]})
    ∅ ∅ ∅ [] 100 [].
Definition ex_plain8 : OrderInput := mkOrderInput 8 None None 10.

Definition ex_save10 : Coupon :=
  mkCoupon "SAVE10" "percentage" 10%Q 0%Q None 0 100 None 0 true.
Definition ex_store_save10 : Store :=
  mkStore {[1%nat := ex_mouse]} {[7%nat := ex_cart]} {["SAVE10" := ex_save10]}
    ∅ ∅ [] 100 [].
Definition ex_save10_inp : OrderInput := mkOrderInput 7 None (Some "save10") 10.

(** A coupon whose [usageLimit] is stored as [0]. *)
Definition ex_zero_limit : Coupon :=
  mkCoupon "ZERO" "fixed" 5%Q 0%Q None 0 100 (Some 0) 0 true.
Definition ex_store_zero : Store :=
  mkStore {[1%nat := ex_mouse]} {[7%nat := ex_cart]} {["ZERO" := ex_zero_limit]}
    ∅ ∅ [] 100 [].
Definition ex_zero_inp : OrderInput := mkOrderInput 7 None (Some "zero") 10.

(** An order of user 7 with two lines on the same product, paid by card,
    confirmed, with its payment. *)
Definition ex_paid_order : Order :=
  mkOrder 7 [mkOrderItem 1 "Mouse" 2 15%Q None; mkOrderItem 1 "Mouse" 1 15%Q None]
    45%Q 0%Q None PSPaid OSConfirmed "card" (Some 101%nat).
Definition ex_store_paid : Store :=
  mkStore {[1%nat := ex_mouse]} ∅ ∅ {[100%nat := ex_paid_order]}
    {[101%nat := mkPayment 100 7 45%Q "card" PayCompleted]} [] 102 [].

(** ** updateOrderStatus (paymentController.js, lines 637-669) *)

(** The [enum] of [orderStatus] in the Order schema. *)
Definition parse_order_status (str : string) : option OrderStatus :=
  if String.eqb str "pending" then Some OSPending
  else if String.eqb str "confirmed" then Some OSConfirmed
  else if String.eqb str "processing" then Some OSProcessing
  else if String.eqb str "shipped" then Some OSShipped
  else if String.eqb str "delivered" then Some OSDelivered
  else if String.eqb str "cancelled" then Some OSCancelled
  else None.

Definition set_orderStatus (st : OrderStatus) (o : Order) : Order :=
  mkOrder (o_userId o) (o_items o) (o_totalPrice o) (o_discount o)
    (o_couponCode o) (o_paymentStatus o) st (o_paymentMethod o) (o_paymentId o).

(** The admin handler.  [Order.findById] has no owner filter.  An
    [orderStatus] outside the enum is assigned and then rejected by the
    validator of [order.save()].  The order documents of this model carry no
    [trackingNumber] (as they carry no [shippingAddress] or [notes]): that
    field has no validator and nothing here reads it, so its assignment is
    left out.  [sendNotification] is awaited without a guard, after the
    save. *)
Definition updateOrderStatus (env : Env) (oid : nat) (orderStatus : option string)
    (s : Store) : Store * Outcome :=
  match st_orders s !! oid with
  | None => (s, Failure ErrOrderNotFound)
  | Some order =>
      let saved :=
        match orderStatus with
        | Some str =>
            if js_truthy_str orderStatus then
              option_map (fun st => set_orderStatus st order) (parse_order_status str)
            else Some order
        | None => Some order
        end in
      match saved with
      | None => (s, Failure ErrValidation)
      | Some order' =>
          let s1 := log_event (EvOrderSaved oid)
              (set_orders (<[oid := order']> (st_orders s)) s) in
          if env_notify_fails env then (s1, Failure ErrNotification) else
          (log_event (EvNotificationCreated oid)
             (set_notifications (st_notifications s1 ++
                [mkNotification (o_userId order) "order_status_updated" oid]) s1),
           Success oid)
      end
  end.

(** ** processCOD and the cart handlers *)

(** The errors of the handlers that answer with [res.status(...).json];
    [AECastError] is the [CastError] of an id that does not cast to an
    ObjectId, which the error handler (src/unnamed/part_018, line 112)
    answers with 404 "Resource not found". *)
Inductive ApiError :=
  | AEProductNotFound
  | AEOnlyInStock (stock : Z)
  | AEValidation
  | AETypeError
  | AEOrderNotFound
  | AENotCOD
  | AECastError.

Inductive Reply :=
  | Done
  | Fail (e : ApiError).

(** [Payment.findOne({orderId})]: document ids are handed out in increasing
    order by [st_nextId], so the first matching document in insertion order
    is the one with the least id. *)
Definition find_payment_of (oid : nat) (s : Store) : option nat :=
  find (fun k => match st_payments s !! k with
                 | Some p => Nat.eqb (pay_orderId p) oid
                 | None => false
                 end) (seq 0 (st_nextId s)).

(** processCOD (paymentController.js, lines 342-379). *)
Definition processCOD (oid uid : nat) (s : Store) : Store * Reply :=
  match st_orders s !! oid with
  | Some order =>
      if Nat.eqb (o_userId order) uid then
        if negb (String.eqb (o_paymentMethod order) "COD") then (s, Fail AENotCOD)
        else
          match find_payment_of oid s with
          | Some pid =>
              (log_event (EvPaymentUpdated pid)
                 (set_payments (alter (set_pay_status PayPending) pid (st_payments s)) s),
               Done)
          | None => (s, Done)
          end
      else (s, Fail AEOrderNotFound)
  | None => (s, Fail AEOrderNotFound)
  end.

(** controllers/cartController.js *)

(** *** Product ids

    The cart handlers take [productId] as a string of the request body
    (other JSON values are not modelled).  [Product.findById] casts it to
    an ObjectId as bson 4 (Mongoose 5 and 6) does: 12 characters that are
    12 bytes in UTF-8 (all ASCII) are taken as the 12 bytes, 24 hexadecimal
    digits in either case as their value, and any other string makes the
    cast throw a [CastError].  An ObjectId is modelled by the number its 12
    bytes spell (big-endian), which is the key of [st_products];
    [toString()] gives its 24 lowercase hexadecimal digits. *)

Definition hex_digit (c : ascii) : option nat :=
  let n := nat_of_ascii c in
  if (48 <=? n)%nat && (n <=? 57)%nat then Some (n - 48)%nat
  else if (97 <=? n)%nat && (n <=? 102)%nat then Some (n - 87)%nat
  else if (65 <=? n)%nat && (n <=? 70)%nat then Some (n - 55)%nat
  else None.

Fixpoint hex_value (acc : nat) (s : string) : option nat :=
  match s with
  | EmptyString => Some acc
  | String c rest =>
      match hex_digit c with
      | Some d => hex_value (acc * 16 + d)%nat rest
      | None => None
      end
  end.

Fixpoint bytes_value (acc : nat) (s : string) : option nat :=
  match s with
  | EmptyString => Some acc
  | String c rest =>
      let n := nat_of_ascii c in
      if (n <? 128)%nat then bytes_value (acc * 256 + n)%nat rest else None
  end.

(** The cast of a string to an ObjectId; [None] is a [CastError]. *)
Definition cast_oid (id : string) : option nat :=
  if (String.length id =? 12)%nat then bytes_value 0 id
  else if (String.length id =? 24)%nat then hex_value 0 id
  else None.

Definition hex_char (d : nat) : ascii :=
  ascii_of_nat (if (d <? 10)%nat then 48 + d else 87 + d)%nat.

(** The hexadecimal digits of [n], at least [k] of them, in front of
    [acc]; [fuel] bounds the number of digits. *)
Fixpoint hex_digits (fuel k n : nat) (acc : string) : string :=
  match fuel with
  | O => acc
  | S fuel' =>
      match k, n with
      | O, O => acc
      | _, _ => hex_digits fuel' (Nat.pred k) (n / 16) (String (hex_char (n mod 16)) acc)
      end
  end.

(** [objectId.toString()]: 24 digits (a number past 96 bits, which no
    ObjectId is, would get more). *)
Definition oid_str (n : nat) : string := hex_digits (24 + n) 24 n EmptyString.

(** A request id that is the string [toString()] gives for the id it casts
    to (an id that does not cast never reaches the item lookup). *)
Definition canonical_id (productId : string) : bool :=
  match cast_oid productId with
  | Some pid => String.eqb (oid_str pid) productId
  | None => true
  end.

Definition set_items (items : list CartItem) (c : Cart) : Cart :=
  mkCart (cart_userId c) items (cart_totalPrice c).

(** [item.quantity = q; item.price = price]. *)
Definition set_line (q : Z) (price : Q) (item : CartItem) : CartItem :=
  mkCartItem (ci_productId item) q price.

(** [cart.items.findIndex(item => item.productId.toString() === productId)],
    with the item found: a strict comparison of strings. *)
Definition findIndex (productId : string) (items : list CartItem)
    : option (nat * CartItem) :=
  list_find (fun item => oid_str (ci_productId item) = productId) items.

(** The validator [cart.save()] runs on the items: [quantity] has [min: 1]. *)
Definition cart_valid (c : Cart) : bool :=
  forallb (fun ci => 1 <=? ci_quantity ci) (cart_items c).

(** [await cart.save()]: validation, then the pre-save hook. *)
Definition save_cart (uid : nat) (c : Cart) (s : Store) : Store * Reply :=
  if cart_valid c then
    (log_event (EvCartSaved uid) (set_carts (<[uid := cart_save c]> (st_carts s)) s), Done)
  else (s, Fail AEValidation).

(** [let cart = await Cart.findOne({userId}); if (!cart) cart = await
    Cart.create({userId, items: []})]. *)
Definition find_or_create_cart (uid : nat) (s : Store) : Store * Cart :=
  match st_carts s !! uid with
  | Some cart => (s, cart)
  | None =>
      let cart := cart_save (mkCart uid [] 0%Q) in
      (log_event (EvCartSaved uid) (set_carts (<[uid := cart]> (st_carts s)) s), cart)
  end.

(** addToCart (lines 40-105).  [quantity = 1] applies when the body has no
    [quantity].  The pushed [{productId}] is cast as [findById] cast it. *)
Definition addToCart (uid : nat) (productId : string) (quantity : option Z) (s : Store)
    : Store * Reply :=
  let quantity := match quantity with Some q => q | None => 1 end in
  match cast_oid productId with
  | None => (s, Fail AECastError)
  | Some pid =>
  match st_products s !! pid with
  | None => (s, Fail AEProductNotFound)
  | Some product =>
      if negb (p_isActive product) then (s, Fail AEProductNotFound) else
      if p_stock product <? quantity then (s, Fail (AEOnlyInStock (p_stock product))) else
      let '(s1, cart) := find_or_create_cart uid s in
      let itemPrice := effective_price product in
      match findIndex productId (cart_items cart) with
      | Some (i, item) =>
          let newQuantity := ci_quantity item + quantity in
          if p_stock product <? newQuantity then
            (s1, Fail (AEOnlyInStock (p_stock product)))
          else
            save_cart uid (set_items (<[i := set_line newQuantity itemPrice item]>
                                        (cart_items cart)) cart) s1
      | None =>
          save_cart uid (set_items (cart_items cart ++
                                    [mkCartItem pid quantity itemPrice]) cart) s1
      end
  end
  end.

(** An element of [req.body.guestCartItems]. *)
Record GuestItem := mkGuestItem {
  g_productId : string;
  g_quantity : Z
}.

(** One iteration of the loop of mergeCart (lines 227-252); [None] is the
    [CastError] of [findById], which ends the loop and the handler. *)
Definition merge_item (prods : gmap nat Product) (items : list CartItem)
    (guestItem : GuestItem) : option (list CartItem) :=
  match cast_oid (g_productId guestItem) with
  | None => None
  | Some pid =>
  match prods !! pid with
  | None => Some items
  | Some product =>
      if negb (p_isActive product) then Some items else
      let itemPrice := effective_price product in
      match findIndex (g_productId guestItem) items with
      | Some (i, item) =>
          let newQuantity := ci_quantity item + g_quantity guestItem in
          if newQuantity <=? p_stock product then
            Some (<[i := set_line newQuantity itemPrice item]> items)
          else Some items
      | None =>
          if g_quantity guestItem <=? p_stock product then
            Some (items ++ [mkCartItem pid (g_quantity guestItem) itemPrice])
          else Some items
      end
  end
  end.

(** The loop [for (const guestItem of guestCartItems)]. *)
Fixpoint merge_items (prods : gmap nat Product) (guests : list GuestItem)
    (items : list CartItem) : option (list CartItem) :=
  match guests with
  | [] => Some items
  | guestItem :: rest =>
      match merge_item prods items guestItem with
      | Some items' => merge_items prods rest items'
      | None => None
      end
  end.

(** mergeCart (lines 217-263).  A body without [guestCartItems] makes the
    [for ... of] throw a [TypeError], and a guest id that does not cast
    makes [findById] throw a [CastError]; both happen after the cart may
    have been created, and before [cart.save()]. *)
Definition mergeCart (uid : nat) (guestCartItems : option (list GuestItem)) (s : Store)
    : Store * Reply :=
  let '(s1, cart) := find_or_create_cart uid s in
  match guestCartItems with
  | None => (s1, Fail AETypeError)
  | Some guests =>
      match merge_items (st_products s1) guests (cart_items cart) with
      | None => (s1, Fail AECastError)
      | Some items => save_cart uid (set_items items cart) s1
      end
  end.

(** The price refresh of getCart (lines 17-24): the populated product is
    [null] for a deleted product, and the item is then left as it is. *)
Definition reprice (prods : gmap nat Product) (item : CartItem) : CartItem :=
  match prods !! ci_productId item with
  | Some product => set_line (ci_quantity item) (effective_price product) item
  | None => item
  end.

(** getCart (lines 7-35). *)
Definition getCart (uid : nat) (s : Store) : Store * Reply :=
  let '(s1, cart) := find_or_create_cart uid s in
  save_cart uid (set_items (map (reprice (st_products s1)) (cart_items cart)) cart) s1.

(** ** Invariants of the carts *)

(** What the pre-save hook of models/Cart.js stores as [totalPrice]. *)
Definition cart_total (items : list CartItem) : Q :=
  fold_left (fun t it => t + ci_price it * inject_Z (ci_quantity it))%Q items 0%Q.

(** Every stored cart sits under its own [userId], has at most one line
    per product, quantities at least 1, and the [totalPrice] of its
    items. *)
Definition carts_ok (s : Store) : Prop :=
  forall uid c, st_carts s !! uid = Some c ->
    cart_userId c = uid /\ NoDup (map ci_productId (cart_items c)) /\
    Forall (fun ci => 1 <= ci_quantity ci) (cart_items c) /\
    cart_totalPrice c = cart_total (cart_items c).

(** [carts_ok] without the one line per product. *)
Definition carts_shape (s : Store) : Prop :=
  forall uid c, st_carts s !! uid = Some c ->
    cart_userId c = uid /\ Forall (fun ci => 1 <= ci_quantity ci) (cart_items c) /\
    cart_totalPrice c = cart_total (cart_items c).

(** Payments only refer to orders created before them. *)
Definition payments_ok (s : Store) : Prop :=
  forall k p, st_payments s !! k = Some p -> (pay_orderId p < st_nextId s)%nat.

(** ** More sample data *)

(** The store after the checkout of the sample cart with the method
    defaulted, its order 100 and payment 101. *)
Definition ex_cod_order : Order :=
  mkOrder 7 [mkOrderItem 1 "Mouse" 2 15%Q (Some "mouse.png")] 30%Q 0%Q None
    PSPending OSPending "COD" (Some 101%nat).
Definition ex_store_cod : Store :=
  mkStore {[1%nat := ex_mouse]} ∅ ∅ {[100%nat := ex_cod_order]}
    {[101%nat := mkPayment 100 7 30%Q "COD" PayProcessing]} [] 102 [].

(** A user without a cart, and a guest cart with a line on the mouse twice
    and one on a missing product. *)
Definition ex_store_nocart : Store :=
  mkStore {[1%nat := ex_mouse]} ∅ ∅ ∅ ∅ [] 100 [].
Definition ex_guest : list GuestItem :=
  [mkGuestItem (oid_str 1) 2; mkGuestItem (oid_str 9) 1; mkGuestItem (oid_str 1) 2].

(** A keyboard with id 10, whose [toString()] ends in the digit "a", in the
    cart of user 7; the same id spelled with an uppercase "A". *)
Definition ex_keyboard : Product :=
  mkProduct "Keyboard" [] 40%Q None 10 true.
Definition ex_store_kbd : Store :=
  mkStore {[10%nat := ex_keyboard]} {[7%nat := mkCart 7 [mkCartItem 10 1 40%Q] 40%Q]}
    ∅ ∅ ∅ [] 100 [].
Definition ex_kbd_upper : string := "00000000000000000000000A".

(** The sample cart at a stale price of 20. *)
Definition ex_store_stale : Store :=
  mkStore {[1%nat := ex_mouse]} {[7%nat := mkCart 7 [mkCartItem 1 2 20%Q] 40%Q]}
    ∅ ∅ ∅ [] 100 [].

(** * Properties *)

(** ** The item loop *)

Lemma check_items_ok (prods : gmap nat Product) items t acc ois t' :
  check_items prods items t acc = ROk (ois, t') ->
  exists fresh, ois = acc ++ fresh /\
    Forall2 (item_snapshot prods) items fresh /\
    (t' == t + items_total prods items)%Q.
Proof.
  revert t acc. induction items as [|ci rest IH]; intros t acc H; simpl in H.
  - injection H as <- <-. exists []. rewrite app_nil_r. simpl.
    split; [reflexivity | split; [constructor | ring]].
  - destruct (prods !! ci_productId ci) as [p|] eqn:Hp; [|discriminate].
    destruct (negb (p_isActive p)); [discriminate|].
    destruct (p_stock p <? ci_quantity ci); [discriminate|].
    apply IH in H as (fresh & -> & Hf & Ht).
    eexists (_ :: fresh). split; [rewrite <- app_assoc; reflexivity|].
    split.
    + constructor; [|exact Hf].
      split; [reflexivity | split; [reflexivity | exists p; split; [exact Hp | reflexivity]]].
    + simpl. rewrite Hp, Ht. ring.
Qed.

Lemma check_items_succeeds (prods : gmap nat Product) items t acc :
  Forall (available prods) items ->
  exists ois t', check_items prods items t acc = ROk (ois, t').
Proof.
  revert t acc. induction items as [|ci rest IH]; intros t acc Hall; simpl.
  - eauto.
  - inversion Hall as [|? ? (p & Hp & Hact & Hq) Hrest]; subst.
    rewrite Hp, Hact. simpl.
    replace (p_stock p <? ci_quantity ci) with false by (symmetry; apply Z.ltb_ge; lia).
    apply IH, Hrest.
Qed.

Lemma effective_price_nonneg p :
  (0 <= p_price p)%Q -> (forall d, p_discountPrice p = Some d -> (0 <= d)%Q) ->
  (0 <= effective_price p)%Q.
Proof.
  intros Hp Hd. unfold effective_price.
  destruct (p_discountPrice p) as [d|] eqn:E; [|exact Hp].
  destruct (js_truthy_Q (Some d)); [apply Hd; reflexivity | exact Hp].
Qed.

Lemma items_total_nonneg (prods : gmap nat Product) items :
  (forall id p, prods !! id = Some p ->
     (0 <= p_price p)%Q /\ (forall d, p_discountPrice p = Some d -> (0 <= d)%Q)) ->
  Forall (fun ci => 1 <= ci_quantity ci) items ->
  (0 <= items_total prods items)%Q.
Proof.
  intros Hwf. induction items as [|ci rest IH]; intros Hq; simpl.
  - apply Qle_refl.
  - inversion Hq as [|? ? Hq1 Hrest]; subst.
    specialize (IH Hrest).
    destruct (prods !! ci_productId ci) as [p|] eqn:Hp; [|exact IH].
    destruct (Hwf _ _ Hp) as [Hpr Hd].
    apply Qle_trans with (0 + 0)%Q; [unfold Qle; simpl; lia|].
    apply Qplus_le_compat; [|exact IH].
    apply Qmult_le_0_compat; [apply effective_price_nonneg; assumption|].
    unfold Qle; simpl. lia.
Qed.

(** ** The stock loops *)

Lemma add_stock_add a b p : add_stock a (add_stock b p) = add_stock (b + a) p.
Proof. destruct p; unfold add_stock; simpl. f_equal. lia. Qed.

Lemma add_stock_0 p : add_stock 0 p = p.
Proof. destruct p; unfold add_stock; simpl. f_equal. lia. Qed.

Lemma inc_stock_frame pid delta s : same_but_products s (inc_stock pid delta s).
Proof. repeat split. Qed.

Lemma inc_stock_lookup pid delta s pid' :
  st_products (inc_stock pid delta s) !! pid' =
  (if Nat.eqb pid pid' then add_stock delta <$> st_products s !! pid'
   else st_products s !! pid').
Proof.
  simpl. destruct (Nat.eqb_spec pid pid') as [->|Hne].
  - apply lookup_alter_eq.
  - apply lookup_alter_ne. exact Hne.
Qed.

Lemma reduce_stock_spec items s :
  same_but_products s (reduce_stock items s) /\
  forall pid, st_products (reduce_stock items s) !! pid =
              add_stock (- order_qty pid items) <$> st_products s !! pid.
Proof.
  revert s. induction items as [|oi rest IH]; intros s; simpl.
  - split; [repeat split|]. intros pid.
    destruct (st_products s !! pid); simpl; [rewrite add_stock_0|]; reflexivity.
  - destruct (IH (inc_stock (oi_productId oi) (- oi_quantity oi) s)) as [Hf Hp].
    split.
    + destruct Hf as (H1 & H2 & H3 & H4 & H5 & H6). repeat split; assumption.
    + intros pid. rewrite Hp, inc_stock_lookup.
      destruct (Nat.eqb (oi_productId oi) pid);
        destruct (st_products s !! pid); simpl; try reflexivity;
        rewrite ?add_stock_add; f_equal; f_equal; lia.
Qed.

Lemma restore_stock_spec items s :
  same_but_products s (restore_stock items s) /\
  forall pid, st_products (restore_stock items s) !! pid =
              add_stock (order_qty pid items) <$> st_products s !! pid.
Proof.
  revert s. induction items as [|oi rest IH]; intros s; simpl.
  - split; [repeat split|]. intros pid.
    destruct (st_products s !! pid); simpl; [rewrite add_stock_0|]; reflexivity.
  - destruct (IH (inc_stock (oi_productId oi) (oi_quantity oi) s)) as [Hf Hp].
    split.
    + destruct Hf as (H1 & H2 & H3 & H4 & H5 & H6). repeat split; assumption.
    + intros pid. rewrite Hp, inc_stock_lookup.
      destruct (Nat.eqb (oi_productId oi) pid);
        destruct (st_products s !! pid); simpl; try reflexivity;
        rewrite ?add_stock_add; f_equal; f_equal; lia.
Qed.

Lemma order_qty_snapshot (prods : gmap nat Product) items fresh pid :
  Forall2 (item_snapshot prods) items fresh ->
  order_qty pid fresh = cart_qty pid items.
Proof.
  induction 1 as [|ci oi items' fresh' (Hid & Hq & _) _ IH]; simpl; [reflexivity|].
  rewrite Hid, Hq, IH. reflexivity.
Qed.

(** ** A checkout without coupon *)

Lemma snapshot_quantities (prods : gmap nat Product) items fresh :
  Forall2 (item_snapshot prods) items fresh ->
  Forall (fun ci => 1 <= ci_quantity ci) items ->
  forallb (fun oi => 1 <=? oi_quantity oi) fresh = true.
Proof.
  induction 1 as [|ci oi items' fresh' (_ & Hq & _) _ IH]; intros Hall; [reflexivity|].
  inversion Hall as [|? ? H1 Hrest]; subst. simpl.
  rewrite Hq. apply andb_true_intro. split; [apply Z.leb_le; exact H1 | apply IH, Hrest].
Qed.

Lemma validate_plain inp s cart :
  st_carts s !! in_userId inp = Some cart -> cart_items cart <> [] ->
  Forall (available (st_products s)) (cart_items cart) ->
  in_couponCode inp = None ->
  exists ois t,
    checkout_validate inp s = ROk (mkPlan cart ois (t - 0) 0 None) /\
    Forall2 (item_snapshot (st_products s)) (cart_items cart) ois /\
    (t == items_total (st_products s) (cart_items cart))%Q.
Proof.
  intros Hc Hne Hav Hcc.
  destruct (check_items_succeeds (st_products s) (cart_items cart) 0%Q [] Hav)
    as (ois & t & Hck).
  destruct (check_items_ok _ _ _ _ _ _ Hck) as (fresh & Hois & Hf & Ht).
  simpl in Hois; subst ois.
  exists fresh, t. split; [|split; [exact Hf | rewrite Ht; ring]].
  unfold checkout_validate. rewrite Hc.
  destruct (cart_items cart) as [|ci rest] eqn:E; [congruence|].
  rewrite Hck, Hcc. reflexivity.
Qed.

Lemma checkout_plain_spec env inp s cart s' out :
  wf_store s ->
  st_carts s !! in_userId inp = Some cart -> cart_items cart <> [] ->
  Forall (available (st_products s)) (cart_items cart) ->
  in_couponCode inp = None ->
  valid_method (method_or_cod (in_paymentMethod inp)) = true ->
  createOrder env inp s = (s', out) ->
  exists oid order pid pay,
    out = (if env_notify_fails env then Failure ErrNotification else Success oid) /\
    st_orders s !! oid = None /\ st_orders s' !! oid = Some order /\
    (o_totalPrice order == items_total (st_products s) (cart_items cart))%Q /\
    o_discount order = 0%Q /\ o_couponCode order = None /\
    (forall pid', st_products s' !! pid' =
        add_stock (- cart_qty pid' (cart_items cart)) <$> st_products s !! pid') /\
    st_carts s' = <[in_userId inp := cart_save (clear_items cart)]> (st_carts s) /\
    st_coupons s' = st_coupons s /\
    st_payments s !! pid = None /\ st_payments s' = <[pid := pay]> (st_payments s) /\
    pay_amount pay = o_totalPrice order /\ o_paymentId order = Some pid.
Proof.
  intros (Hwp & Hwc & Hwid) Hc Hne Hav Hcc Hm Hrun.
  destruct (validate_plain inp s cart Hc Hne Hav Hcc) as (ois & t & Hv & Hf & Ht).
  assert (Hpos : (0 <= t - 0)%Q).
  { assert (E : (t - 0 == items_total (st_products s) (cart_items cart))%Q)
      by (rewrite Ht; ring).
    rewrite E. apply items_total_nonneg; [exact Hwp | exact (Hwc _ _ Hc)]. }
  unfold createOrder in Hrun. rewrite Hv in Hrun. unfold checkout_commit in Hrun.
  cbv beta iota zeta in Hrun. rewrite Hcc in Hrun.
  cbn [pl_items pl_total pl_cart pl_discount pl_coupon js_truthy_str] in Hrun.
  match type of Hrun with context [order_valid ?o] =>
    assert (Hov : order_valid o = true) end.
  { unfold order_valid. simpl. rewrite Hm.
    apply Qle_bool_iff in Hpos. rewrite Hpos.
    rewrite (snapshot_quantities _ _ _ Hf (Hwc _ _ Hc)). reflexivity. }
  rewrite Hov in Hrun. simpl negb in Hrun. cbv iota in Hrun.
  match type of Hrun with context [payment_valid ?p] =>
    assert (Hpv : payment_valid p = true) end.
  { unfold payment_valid. simpl. rewrite Hm.
    apply Qle_bool_iff in Hpos. rewrite Hpos. reflexivity. }
  rewrite Hpv in Hrun. simpl negb in Hrun. cbv iota in Hrun.
  match type of Hrun with context [reduce_stock ois ?x] =>
    destruct (reduce_stock_spec ois x) as ((Hrc & Hrk & Hro & Hrp & Hrn & Hri) & Hrs);
    set (s3 := reduce_stock ois x) in *; clearbody s3 end.
  simpl in Hri, Hro, Hrc, Hrk, Hrp, Hrs. simpl in Hrun. rewrite Hri in Hrun.
  destruct (Hwid (st_nextId s) (le_n _)) as [Ho0 _].
  destruct (Hwid (S (st_nextId s)) (le_S _ _ (le_n _))) as [_ Hp0].
  do 4 eexists.
  destruct (env_notify_fails env); [|destruct (env_email_fails env)];
    injection Hrun as <- <-; simpl;
    rewrite ?Hrc, ?Hrk, ?Hro, ?Hrp, ?Hri; simpl;
    (split; [reflexivity|]);
    (split; [exact Ho0|]);
    (split; [apply lookup_insert_eq|]);
    (split; [simpl; rewrite Ht; ring|]);
    (split; [reflexivity|]);
    (split; [reflexivity|]);
    (split; [intros pid'; rewrite Hrs; simpl;
             rewrite (order_qty_snapshot _ _ _ _ Hf); reflexivity|]);
    (split; [reflexivity|]);
    (split; [reflexivity|]);
    (split; [exact Hp0|]);
    (split; [reflexivity|]);
    split; reflexivity.
Qed.

(** ** Sample stores satisfy the schema invariants *)

Lemma ex_store_wf : wf_store ex_store.
Proof.
  split; [|split].
  - intros id p H. unfold ex_store in H; cbn [st_products] in H.
    apply lookup_singleton_Some in H as [_ <-]. simpl.
    split; [unfold Qle; simpl; lia | discriminate].
  - intros uid c H. unfold ex_store in H; cbn [st_carts] in H.
    apply lookup_singleton_Some in H as [_ <-]. simpl.
    repeat constructor; simpl; lia.
  - intros k _. split; reflexivity.
Qed.

Lemma ex_race_store_wf : wf_store ex_race_store.
Proof.
  split; [|split].
  - intros id p H. unfold ex_race_store in H; cbn [st_products] in H.
    apply lookup_singleton_Some in H as [_ <-]. simpl.
    split; [unfold Qle; simpl; lia | discriminate].
  - intros uid c H. unfold ex_race_store in H. cbn [st_carts] in H.
    apply lookup_insert_Some in H as [[_ <-]|[_ H]];
      [|apply lookup_singleton_Some in H as [_ <-]];
      simpl; repeat constructor; simpl; lia.
  - intros k _. split; reflexivity.
Qed.

(** ** C1 *)

(** C1 (counterexample).  A well-formed cart of available products and no
    coupon, but the request names the payment method "bitcoin": the enum of
    the Order schema rejects the order and [createOrder] fails. *)
Lemma C1_unknown_payment_method_fails :
  Forall (available (st_products ex_store)) (cart_items ex_cart) /\
  st_carts ex_store !! 7%nat = Some ex_cart /\
  in_couponCode ex_bitcoin = None /\
  createOrder ex_env ex_bitcoin ex_store = (ex_store, Failure ErrValidation).
Proof.
  split; [|split; [|split]]; [|reflexivity..].
  repeat constructor. exists ex_mouse. repeat split; simpl; lia.
Qed.

(** C1 (amended).  On a store meeting the schema constraints, for a
    non-empty cart whose items all reference active products with stock at
    least the requested quantity, no coupon code, and a payment method that
    is absent or one the schemas accept: [createOrder] creates a new order
    whose [totalPrice] is the sum over the cart of the effective unit price
    ([discountPrice || price]) times the quantity, decreases the stock of
    each product by exactly the quantity ordered of it, leaves the cart's
    item list empty, and creates exactly one payment, with amount the
    order's [totalPrice] and linked to the order.  When the order-placed
    notification can be written, it answers with success and the new
    order. *)
Theorem C1_checkout_without_coupon env inp s cart s' out :
  wf_store s ->
  st_carts s !! in_userId inp = Some cart -> cart_items cart <> [] ->
  Forall (available (st_products s)) (cart_items cart) ->
  in_couponCode inp = None ->
  valid_method (method_or_cod (in_paymentMethod inp)) = true ->
  createOrder env inp s = (s', out) ->
  exists oid order pid pay,
    (env_notify_fails env = false -> out = Success oid) /\
    st_orders s !! oid = None /\ st_orders s' !! oid = Some order /\
    (o_totalPrice order == items_total (st_products s) (cart_items cart))%Q /\
    (forall pid', st_products s' !! pid' =
        add_stock (- cart_qty pid' (cart_items cart)) <$> st_products s !! pid') /\
    (exists c', st_carts s' !! in_userId inp = Some c' /\ cart_items c' = []) /\
    st_payments s !! pid = None /\ st_payments s' = <[pid := pay]> (st_payments s) /\
    pay_amount pay = o_totalPrice order /\ o_paymentId order = Some pid.
Proof.
  intros Hwf Hc Hne Hav Hcc Hm Hrun.
  destruct (checkout_plain_spec env inp s cart s' out Hwf Hc Hne Hav Hcc Hm Hrun)
    as (oid & order & pid & pay & Hout & Ho0 & Ho & Ht & _ & _ & Hp & Hcart & _ &
        Hp0 & Hpay & Ham & Hlink).
  exists oid, order, pid, pay.
  split; [intros Hn; rewrite Hout, Hn; reflexivity|].
  repeat (split; [eassumption|]).
  split; [rewrite Hcart; eexists; split; [apply lookup_insert_eq | reflexivity]|].
  repeat (split; [eassumption|]). exact Hlink.
Qed.

Lemma C1_checkout_without_coupon_witness :
  exists oid order pid pay,
    (env_notify_fails ex_env = false ->
     snd (createOrder ex_env ex_plain ex_store) = Success oid) /\
    st_orders ex_store !! oid = None /\
    st_orders (fst (createOrder ex_env ex_plain ex_store)) !! oid = Some order /\
    (o_totalPrice order == items_total (st_products ex_store) (cart_items ex_cart))%Q /\
    (forall pid', st_products (fst (createOrder ex_env ex_plain ex_store)) !! pid' =
        add_stock (- cart_qty pid' (cart_items ex_cart)) <$> st_products ex_store !! pid') /\
    (exists c', st_carts (fst (createOrder ex_env ex_plain ex_store)) !! 7%nat = Some c' /\
                cart_items c' = []) /\
    st_payments ex_store !! pid = None /\
    st_payments (fst (createOrder ex_env ex_plain ex_store)) =
      <[pid := pay]> (st_payments ex_store) /\
    pay_amount pay = o_totalPrice order /\ o_paymentId order = Some pid.
Proof.
  apply (C1_checkout_without_coupon ex_env ex_plain ex_store ex_cart
           (fst (createOrder ex_env ex_plain ex_store))
           (snd (createOrder ex_env ex_plain ex_store))).
  - exact ex_store_wf.
  - reflexivity.
  - discriminate.
  - repeat constructor. exists ex_mouse. repeat split; simpl; lia.
  - reflexivity.
  - vm_compute. reflexivity.
  - reflexivity.
Defined.

(** ** Failures before the first write *)

(** The only errors [checkout_commit] produces. *)
Lemma checkout_commit_errors env inp plan s s' e :
  checkout_commit env inp plan s = (s', Failure e) ->
  e = ErrValidation \/ e = ErrNotification.
Proof.
  unfold checkout_commit. cbv zeta.
  destruct (negb (order_valid _)); [intros H; injection H as _ <-; auto|].
  destruct (negb (payment_valid _)); [intros H; injection H as _ <-; auto|].
  destruct (env_notify_fails env); [intros H; injection H as _ <-; auto|].
  intros H; injection H as _ H; discriminate.
Qed.

(** Any failure of steps 1-3 (an error other than a validation error of
    [Order.create]/[Payment.create] or a notification error) leaves the store
    exactly as it was. *)
Lemma createOrder_early_failure_no_effect env inp s s' e :
  createOrder env inp s = (s', Failure e) ->
  e <> ErrValidation -> e <> ErrNotification -> s' = s.
Proof.
  unfold createOrder. destruct (checkout_validate inp s) as [plan|e'].
  - intros H Hv Hn. destruct (checkout_commit_errors _ _ _ _ _ _ H) as [->| ->];
      contradiction.
  - intros H _ _. injection H as <- _. reflexivity.
Qed.

(** ** C2 *)

(** C2 (code bug).  A cart item whose product has been deleted: the
    populated [cartItem.productId] is [null] and [cartItem.productId._id]
    throws a [TypeError] before the [!product] check is reached, so the
    error is not the "no longer available" error (the store is unchanged). *)
Lemma C2_deleted_product_type_error :
  st_products ex_store_deleted !! 2%nat = None /\
  createOrder ex_env ex_plain ex_store_deleted =
    (ex_store_deleted, Failure ErrNullProductRef).
Proof. split; reflexivity. Qed.

(** ** C3 *)

(** C3 (counterexample).  FLAT50 (fixed, 50) on a subtotal of 30: no order
    with [totalPrice] -20 is produced. *)
Lemma C3_flat50_no_negative_order :
  ~ (exists oid order,
       snd (createOrder ex_env ex_flat_inp ex_store) = Success oid /\
       st_orders (fst (createOrder ex_env ex_flat_inp ex_store)) !! oid = Some order /\
       (o_totalPrice order == -20)%Q).
Proof. intros (oid & order & H & _). vm_compute in H. discriminate. Qed.

(** C3 (amended).  A fixed coupon of value 50 applied to a subtotal of 30
    that otherwise passes coupon validation: the checkout computes discount
    50 and [totalPrice] -20 (no clamping, no floor), and [Order.create]
    rejects that total ([min: 0] in the Order schema), so [createOrder]
    fails with a validation error and changes nothing. *)
Theorem C3_fixed_coupon_over_subtotal env inp s cart ois t code c :
  st_carts s !! in_userId inp = Some cart -> cart_items cart <> [] ->
  check_items (st_products s) (cart_items cart) 0%Q [] = ROk (ois, t) ->
  (t == 30)%Q ->
  in_couponCode inp = Some code -> code <> ""%string ->
  find_coupon (st_coupons s) code (in_now inp) = Some c ->
  c_discountType c <> "percentage"%string -> c_discountValue c = 50%Q ->
  limit_reached c = false -> (c_minPurchaseAmount c <= t)%Q ->
  (exists plan, checkout_validate inp s = ROk plan /\
     pl_discount plan = 50%Q /\ (pl_total plan == -20)%Q) /\
  createOrder env inp s = (s, Failure ErrValidation).
Proof.
  intros Hc Hne Hck Ht Hcc Hcode Hf Hty Hv Hlim Hmin.
  assert (Hval : checkout_validate inp s =
                 ROk (mkPlan cart ois (t - 50) 50 (Some (to_upper code, c)))).
  { unfold checkout_validate. rewrite Hc.
    destruct (cart_items cart) as [|ci rest] eqn:E; [congruence|].
    rewrite Hck. unfold apply_coupon. rewrite Hcc.
    unfold js_truthy_str. apply String.eqb_neq in Hcode. rewrite Hcode. simpl.
    rewrite Hf, Hlim. apply Qle_bool_iff in Hmin. rewrite Hmin. simpl.
    unfold coupon_discount. apply String.eqb_neq in Hty. rewrite Hty, Hv.
    reflexivity. }
  split.
  - eexists. split; [exact Hval|]. split; [reflexivity|]. simpl. rewrite Ht. reflexivity.
  - unfold createOrder. rewrite Hval. unfold checkout_commit. cbv zeta.
    replace (order_valid _) with false; [reflexivity|].
    symmetry. unfold order_valid. simpl.
    replace (Qle_bool 0 (t - 50)) with false; [reflexivity|].
    symmetry. apply not_true_iff_false. rewrite Qle_bool_iff. rewrite Ht.
    unfold Qle; simpl; lia.
Qed.

Lemma C3_fixed_coupon_over_subtotal_witness :
  (exists plan, checkout_validate ex_flat_inp ex_store = ROk plan /\
     pl_discount plan = 50%Q /\ (pl_total plan == -20)%Q) /\
  createOrder ex_env ex_flat_inp ex_store = (ex_store, Failure ErrValidation).
Proof.
  apply (C3_fixed_coupon_over_subtotal ex_env ex_flat_inp ex_store ex_cart
           [mkOrderItem 1 "Mouse" 2 15%Q (Some "mouse.png")] 30%Q "flat50" ex_flat50);
    try reflexivity; try discriminate; vm_compute; try reflexivity; try discriminate.
Defined.

(** ** C4 *)

(** C4 (code bug).  The same checkout succeeds when the notification write
    succeeds, and reports an error when it throws, with the order, payment,
    stock and cart writes already done. *)
Lemma C4_notification_failure_fails_checkout :
  snd (createOrder ex_env ex_plain ex_store) = Success 100 /\
  snd (createOrder ex_env_notify_down ex_plain ex_store) = Failure ErrNotification /\
  st_orders (fst (createOrder ex_env_notify_down ex_plain ex_store)) !! 100%nat <> None /\
  st_payments (fst (createOrder ex_env_notify_down ex_plain ex_store)) !! 101%nat <> None.
Proof. vm_compute. repeat split; discriminate. Qed.

(** A failing confirmation email changes neither the outcome nor any
    collection: only the log line differs. *)
Lemma createOrder_email_failure_irrelevant nf inp s :
  snd (createOrder (mkEnv nf true) inp s) = snd (createOrder (mkEnv nf false) inp s) /\
  st_orders (fst (createOrder (mkEnv nf true) inp s)) =
    st_orders (fst (createOrder (mkEnv nf false) inp s)) /\
  st_products (fst (createOrder (mkEnv nf true) inp s)) =
    st_products (fst (createOrder (mkEnv nf false) inp s)) /\
  st_payments (fst (createOrder (mkEnv nf true) inp s)) =
    st_payments (fst (createOrder (mkEnv nf false) inp s)).
Proof.
  unfold createOrder. destruct (checkout_validate inp s) as [plan|e]; [|auto].
  unfold checkout_commit. cbv zeta. simpl env_notify_fails. simpl env_email_fails.
  destruct (negb (order_valid _)); [auto|].
  destruct (negb (payment_valid _)); [auto|].
  destruct nf; auto.
Qed.

(** ** C5 *)

(** C5 (code bug).  With no [paymentMethod] in the request the payment is
    recorded with method COD but status processing. *)
Lemma C5_default_cod_payment_processing :
  snd (createOrder ex_env ex_plain ex_store) = Success 100 /\
  exists pay,
    st_payments (fst (createOrder ex_env ex_plain ex_store)) !! 101%nat = Some pay /\
    pay_method pay = "COD"%string /\ pay_status pay = PayProcessing.
Proof. vm_compute. split; [reflexivity|]. eexists. split; [reflexivity|]. split; reflexivity. Qed.

(** ** C6 *)

(** C6 (counterexample).  ONCE has [usageLimit] 1 and [usedCount] 1 but its
    validity ended at time 5: at time 10 the lookup (which filters on the
    dates) finds nothing and the error is "invalid or expired", not
    "usage limit".  A coupon stored with [usageLimit] 0 is not exhausted:
    [0] is falsy and the checkout succeeds. *)
Lemma C6_exhausted_coupon_counterexample :
  c_usageLimit ex_once = Some 1 /\ c_usedCount ex_once = 1 /\
  createOrder ex_env ex_once_inp ex_store = (ex_store, Failure ErrCouponNotFound) /\
  c_usageLimit ex_zero_limit = Some 0 /\ c_usedCount ex_zero_limit = 0 /\
  snd (createOrder ex_env ex_zero_inp ex_store_zero) = Success 100.
Proof. repeat split; reflexivity. Qed.

(** C6 (amended).  Take a cart that passes the item checks and a coupon
    code that matches (case-insensitively) an active coupon.  If the
    current time is in the coupon's validity window, a nonzero [usageLimit]
    with [usedCount >= usageLimit] makes [createOrder] fail with the
    usage-limit error, whatever the subtotal, and without side effects.  If
    the current time is outside the window, the lookup filters the coupon
    out first and [createOrder] fails with the invalid-or-expired error,
    without side effects, whatever the usage counts.  A [usageLimit] of 0
    is falsy and imposes no limit: the usage-limit error does not occur,
    however large [usedCount] is. *)
Theorem C6_exhausted_coupon env inp s cart code c :
  st_carts s !! in_userId inp = Some cart -> cart_items cart <> [] ->
  Forall (available (st_products s)) (cart_items cart) ->
  in_couponCode inp = Some code -> code <> ""%string ->
  st_coupons s !! to_upper code = Some c -> c_isActive c = true ->
  (c_validFrom c <= in_now inp <= c_validUntil c ->
   forall l, c_usageLimit c = Some l -> l <> 0 -> l <= c_usedCount c ->
   createOrder env inp s = (s, Failure ErrCouponExhausted)) /\
  (in_now inp < c_validFrom c \/ c_validUntil c < in_now inp ->
   createOrder env inp s = (s, Failure ErrCouponNotFound)) /\
  (c_validFrom c <= in_now inp <= c_validUntil c -> c_usageLimit c = Some 0 ->
   snd (createOrder env inp s) <> Failure ErrCouponExhausted).
Proof.
  intros Hc Hne Hav Hcc Hcode Hcp Hact.
  destruct (check_items_succeeds (st_products s) (cart_items cart) 0%Q [] Hav)
    as (ois & t & Hck).
  unfold createOrder, checkout_validate. rewrite Hc.
  destruct (cart_items cart) as [|ci rest] eqn:E; [congruence|].
  rewrite Hck. unfold apply_coupon. rewrite Hcc.
  unfold js_truthy_str. apply String.eqb_neq in Hcode. rewrite Hcode. simpl.
  unfold find_coupon. rewrite Hcp, Hact.
  split; [|split].
  - intros Hnow l Hl Hl0 Hused.
    replace (c_validFrom c <=? in_now inp) with true by (symmetry; apply Z.leb_le; lia).
    replace (in_now inp <=? c_validUntil c) with true by (symmetry; apply Z.leb_le; lia).
    simpl. unfold limit_reached, js_truthy_Z. rewrite Hl.
    replace (l =? 0) with false by (symmetry; apply Z.eqb_neq; exact Hl0).
    replace (l <=? c_usedCount c) with true by (symmetry; apply Z.leb_le; exact Hused).
    reflexivity.
  - intros [Hnow|Hnow].
    + replace (c_validFrom c <=? in_now inp) with false by (symmetry; apply Z.leb_gt; lia).
      reflexivity.
    + replace (in_now inp <=? c_validUntil c) with false by (symmetry; apply Z.leb_gt; lia).
      rewrite andb_false_r. reflexivity.
  - intros Hnow Hl.
    replace (c_validFrom c <=? in_now inp) with true by (symmetry; apply Z.leb_le; lia).
    replace (in_now inp <=? c_validUntil c) with true by (symmetry; apply Z.leb_le; lia).
    simpl. unfold limit_reached, js_truthy_Z. rewrite Hl. simpl.
    destruct (negb (Qle_bool _ _)); [discriminate|].
    destruct (checkout_commit _ _ _ _) as [s' o] eqn:Ec. simpl. intros ->.
    apply checkout_commit_errors in Ec as [? | ?]; discriminate.
Qed.

Lemma C6_exhausted_coupon_witness :
  createOrder ex_env (mkOrderInput 7 None (Some "once") 3) ex_store =
    (ex_store, Failure ErrCouponExhausted) /\
  createOrder ex_env ex_once_inp ex_store = (ex_store, Failure ErrCouponNotFound) /\
  snd (createOrder ex_env ex_zero_inp ex_store_zero) <> Failure ErrCouponExhausted.
Proof.
  assert (Hav : Forall (available (st_products ex_store)) (cart_items ex_cart))
    by (repeat constructor; exists ex_mouse; repeat split; simpl; lia).
  split; [|split].
  - destruct (C6_exhausted_coupon ex_env (mkOrderInput 7 None (Some "once") 3) ex_store
                ex_cart "once" ex_once eq_refl ltac:(discriminate) Hav eq_refl
                ltac:(discriminate) eq_refl eq_refl) as (Ha & _ & _).
    apply (Ha ltac:(simpl; lia) 1 eq_refl ltac:(discriminate) ltac:(simpl; lia)).
  - destruct (C6_exhausted_coupon ex_env ex_once_inp ex_store ex_cart "once" ex_once
                eq_refl ltac:(discriminate) Hav eq_refl ltac:(discriminate) eq_refl
                eq_refl) as (_ & Hb & _).
    apply Hb. right. simpl. lia.
  - destruct (C6_exhausted_coupon ex_env ex_zero_inp ex_store_zero ex_cart "zero"
                ex_zero_limit eq_refl ltac:(discriminate) Hav eq_refl ltac:(discriminate)
                eq_refl eq_refl) as (_ & _ & Hc).
    apply Hc; [simpl; lia|reflexivity].
Defined.

(** ** C7 *)

(** C7 (counterexample).  A product whose [discountPrice] is set to 0 is
    sold at its [price] (15), not at 0. *)
Lemma C7_zero_discount_price_falls_back :
  p_discountPrice ex_free_mouse = Some 0%Q /\
  exists plan, checkout_validate ex_plain ex_store_free = ROk plan /\
    map oi_price (pl_items plan) = [15%Q] /\ pl_total plan = 30%Q.
Proof.
  split; [reflexivity|]. eexists. split; [reflexivity|]. split; reflexivity.
Qed.

Lemma checkout_validate_ok inp s plan :
  checkout_validate inp s = ROk plan ->
  exists t, st_carts s !! in_userId inp = Some (pl_cart plan) /\
    check_items (st_products s) (cart_items (pl_cart plan)) 0%Q [] = ROk (pl_items plan, t) /\
    pl_total plan = (t - pl_discount plan)%Q.
Proof.
  unfold checkout_validate.
  destruct (st_carts s !! in_userId inp) as [cart|] eqn:Hc; [|discriminate].
  destruct (cart_items cart) as [|ci rest] eqn:E; [discriminate|].
  destruct (check_items _ _ _ _) as [[ois t]|e] eqn:Hck; [|discriminate].
  destruct (apply_coupon _ _ _ _) as [[d cp]|e]; [|discriminate].
  intros H. injection H as <-. exists t. simpl. rewrite E. auto.
Qed.

Lemma effective_price_cases p :
  (exists d, p_discountPrice p = Some d /\ ~ (d == 0)%Q /\ effective_price p = d) \/
  ((p_discountPrice p = None \/ exists d, p_discountPrice p = Some d /\ (d == 0)%Q) /\
   effective_price p = p_price p).
Proof.
  unfold effective_price, js_truthy_Q.
  destruct (p_discountPrice p) as [d|]; [|right; auto].
  destruct (Qeq_bool d 0) eqn:E; simpl.
  - right. split; [right; exists d; split; [reflexivity | apply Qeq_bool_eq, E]|reflexivity].
  - left. exists d. split; [reflexivity|]. split; [|reflexivity].
    intros H. apply Qeq_bool_iff in H. congruence.
Qed.

Lemma items_total_snapshot (prods : gmap nat Product) items fresh :
  Forall2 (item_snapshot prods) items fresh ->
  (items_total prods items == order_items_total fresh)%Q.
Proof.
  induction 1 as [|ci oi items' fresh' (Hid & Hq & p & Hp & Hpr) _ IH]; simpl;
    [reflexivity|].
  rewrite Hp, IH, Hpr, Hq. reflexivity.
Qed.

(** C7 (amended).  In every successful validation of a checkout, the unit
    price of each order item is the product's [discountPrice] when it is
    set and nonzero, and its [price] otherwise (in particular when
    [discountPrice] is 0); the subtotal is the sum of these unit prices
    times the quantities. *)
Theorem C7_unit_price inp s plan :
  checkout_validate inp s = ROk plan ->
  Forall2 (fun ci oi =>
      oi_productId oi = ci_productId ci /\ oi_quantity oi = ci_quantity ci /\
      exists p, st_products s !! ci_productId ci = Some p /\
        ((exists d, p_discountPrice p = Some d /\ ~ (d == 0)%Q /\ oi_price oi = d) \/
         ((p_discountPrice p = None \/
           exists d, p_discountPrice p = Some d /\ (d == 0)%Q) /\
          oi_price oi = p_price p)))
    (cart_items (pl_cart plan)) (pl_items plan) /\
  (pl_total plan + pl_discount plan == order_items_total (pl_items plan))%Q.
Proof.
  intros H. destruct (checkout_validate_ok _ _ _ H) as (t & _ & Hck & Htot).
  destruct (check_items_ok _ _ _ _ _ _ Hck) as (fresh & Hf & Hsnap & Ht).
  simpl in Hf. subst fresh. split.
  - eapply Forall2_impl; [exact Hsnap|].
    intros ci oi (Hid & Hq & p & Hp & Hpr). split; [exact Hid|]. split; [exact Hq|].
    exists p. split; [exact Hp|]. rewrite Hpr. apply effective_price_cases.
  - rewrite Htot, <- items_total_snapshot by exact Hsnap. rewrite Ht. ring.
Qed.

Lemma C7_unit_price_witness :
  Forall2 (fun ci oi =>
      oi_productId oi = ci_productId ci /\ oi_quantity oi = ci_quantity ci /\
      exists p, st_products ex_store_free !! ci_productId ci = Some p /\
        ((exists d, p_discountPrice p = Some d /\ ~ (d == 0)%Q /\ oi_price oi = d) \/
         ((p_discountPrice p = None \/
           exists d, p_discountPrice p = Some d /\ (d == 0)%Q) /\
          oi_price oi = p_price p)))
    (cart_items ex_cart) [mkOrderItem 1 "Mouse" 2 15%Q (Some "mouse.png")] /\
  (pl_total (mkPlan ex_cart [mkOrderItem 1 "Mouse" 2 15%Q (Some "mouse.png")] 30%Q 0%Q None)
   + 0 == order_items_total [mkOrderItem 1 "Mouse" 2 15%Q (Some "mouse.png")])%Q.
Proof.
  apply (C7_unit_price ex_plain ex_store_free
           (mkPlan ex_cart [mkOrderItem 1 "Mouse" 2 15%Q (Some "mouse.png")] 30%Q 0%Q None)).
  vm_compute. reflexivity.
Defined.

(** ** C8 *)

(** C8.  Cancelling an order of the caller whose status is pending,
    confirmed or processing succeeds: each product's stock goes up by
    exactly the quantity of the order's items on it (each item counted
    once), the order becomes cancelled, its payment status becomes refunded
    if it was paid and stays as it was otherwise, and the linked payment
    record gets status refunded. *)
Theorem C8_cancel_order oid uid s order s' out :
  st_orders s !! oid = Some order -> o_userId order = uid ->
  o_orderStatus order = OSPending \/ o_orderStatus order = OSConfirmed \/
  o_orderStatus order = OSProcessing ->
  cancelOrder oid uid s = (s', out) ->
  out = Success oid /\
  (forall pid, st_products s' !! pid =
     add_stock (order_qty pid (o_items order)) <$> st_products s !! pid) /\
  (exists order', st_orders s' !! oid = Some order' /\
     o_orderStatus order' = OSCancelled /\
     (o_paymentStatus order = PSPaid -> o_paymentStatus order' = PSRefunded) /\
     (o_paymentStatus order <> PSPaid -> o_paymentStatus order' = o_paymentStatus order)) /\
  (forall pid, o_paymentId order = Some pid ->
     st_payments s' !! pid = set_pay_status PayRefunded <$> st_payments s !! pid).
Proof.
  intros Ho <- Hst Hrun. unfold cancelOrder in Hrun. rewrite Ho, Nat.eqb_refl in Hrun.
  replace (cancellable_check (o_orderStatus order)) with (@None CheckoutError) in Hrun
    by (destruct Hst as [->|[->| ->]]; reflexivity).
  destruct (restore_stock_spec (o_items order) s) as ((Hc & Hk & Ho' & Hp & Hn & Hi) & Hs).
  set (s1 := restore_stock (o_items order) s) in *. clearbody s1.
  assert (Hord : exists order', st_orders s' !! oid = Some order' /\
     o_orderStatus order' = OSCancelled /\
     (o_paymentStatus order = PSPaid -> o_paymentStatus order' = PSRefunded) /\
     (o_paymentStatus order <> PSPaid -> o_paymentStatus order' = o_paymentStatus order)).
  { exists (set_cancelled order).
    split; [destruct (o_paymentId (set_cancelled order)); injection Hrun as <- _;
            apply lookup_insert_eq|].
    split; [reflexivity|]. unfold set_cancelled; simpl.
    split; [intros ->; reflexivity|].
    destruct (o_paymentStatus order); [reflexivity | intros H; congruence | reflexivity..]. }
  destruct (o_paymentId (set_cancelled order)) as [pid|] eqn:Hpid;
    injection Hrun as <- <-; simpl.
  - split; [reflexivity|]. split; [exact Hs|]. split; [exact Hord|].
    intros pid' Hpid'. simpl in Hpid. rewrite Hpid in Hpid'. injection Hpid' as <-.
    rewrite lookup_alter_eq, Hp. reflexivity.
  - split; [reflexivity|]. split; [exact Hs|]. split; [exact Hord|].
    intros pid' Hpid'. simpl in Hpid. congruence.
Qed.

Lemma C8_cancel_order_witness :
  Success 100 = Success 100 /\
  (forall pid, st_products (fst (cancelOrder 100 7 ex_store_paid)) !! pid =
     add_stock (order_qty pid (o_items ex_paid_order)) <$> st_products ex_store_paid !! pid) /\
  (exists order', st_orders (fst (cancelOrder 100 7 ex_store_paid)) !! 100%nat = Some order' /\
     o_orderStatus order' = OSCancelled /\
     (o_paymentStatus ex_paid_order = PSPaid -> o_paymentStatus order' = PSRefunded) /\
     (o_paymentStatus ex_paid_order <> PSPaid ->
      o_paymentStatus order' = o_paymentStatus ex_paid_order)) /\
  (forall pid, o_paymentId ex_paid_order = Some pid ->
     st_payments (fst (cancelOrder 100 7 ex_store_paid)) !! pid =
       set_pay_status PayRefunded <$> st_payments ex_store_paid !! pid).
Proof.
  apply (C8_cancel_order 100 7 ex_store_paid ex_paid_order
           (fst (cancelOrder 100 7 ex_store_paid)) (Success 100)).
  - reflexivity.
  - reflexivity.
  - right; left; reflexivity.
  - vm_compute. reflexivity.
Defined.

(** ** C9 *)

(** Under the interleaving "both handlers read, then both write", the two
    checkouts of the last 5 units both pass the stock check and both
    succeed, and the stock ends at -5. *)
Lemma race_both_pass_stock_check :
  exists s' o1 o2,
    race_steps ex_env (mkConfig ex_race_store (TStart ex_plain) (TStart ex_plain8))
      (mkConfig s' (TDone (Success o1)) (TDone (Success o2))) /\
    option_map p_stock (st_products s' !! 1%nat) = Some (-5).
Proof.
  do 3 eexists. split.
  - eapply race_trans; [apply race_step_a; reflexivity|].
    eapply race_trans; [apply race_step_b; reflexivity|].
    eapply race_trans; [apply race_step_a; vm_compute; reflexivity|].
    eapply race_trans; [apply race_step_b; vm_compute; reflexivity|].
    apply race_refl.
  - vm_compute. reflexivity.
Qed.

(** C9 (counterexample).  Two concurrent checkouts of quantity 5 against a
    stock of 5 can both succeed, driving the stock to -5. *)
Lemma C9_concurrent_checkouts_oversell :
  exists s' o1 o2,
    race_steps ex_env (mkConfig ex_race_store (TStart ex_plain) (TStart ex_plain8))
      (mkConfig s' (TDone (Success o1)) (TDone (Success o2))) /\
    option_map p_stock (st_products s' !! 1%nat) = Some (-5).
Proof. exact race_both_pass_stock_check. Qed.

(** The writes of a checkout planned without coupon on a well-formed store
    [s0] succeed on whatever store they run on, and take the ordered
    quantities off the stock of that store. *)
Lemma commit_plain env inp s0 cart ois t s :
  wf_store s0 -> st_carts s0 !! in_userId inp = Some cart ->
  Forall2 (item_snapshot (st_products s0)) (cart_items cart) ois ->
  (t == items_total (st_products s0) (cart_items cart))%Q ->
  in_couponCode inp = None ->
  valid_method (method_or_cod (in_paymentMethod inp)) = true ->
  env_notify_fails env = false ->
  snd (checkout_commit env inp (mkPlan cart ois (t - 0) 0 None) s) = Success (st_nextId s) /\
  forall pid, st_products (fst (checkout_commit env inp (mkPlan cart ois (t - 0) 0 None) s))
                !! pid = add_stock (- cart_qty pid (cart_items cart)) <$> st_products s !! pid.
Proof.
  intros (Hwp & Hwc & _) Hc Hf Ht Hcc Hm Hnf.
  assert (Hpos : (0 <= t - 0)%Q).
  { assert (E : (t - 0 == items_total (st_products s0) (cart_items cart))%Q)
      by (rewrite Ht; ring).
    rewrite E. apply items_total_nonneg; [exact Hwp | exact (Hwc _ _ Hc)]. }
  unfold checkout_commit. cbv beta iota zeta. rewrite Hcc.
  cbn [pl_items pl_total pl_cart pl_discount pl_coupon js_truthy_str].
  match goal with |- context [order_valid ?o] =>
    assert (Hov : order_valid o = true) end.
  { unfold order_valid. simpl. rewrite Hm.
    apply Qle_bool_iff in Hpos. rewrite Hpos.
    rewrite (snapshot_quantities _ _ _ Hf (Hwc _ _ Hc)). reflexivity. }
  rewrite Hov. simpl negb. cbv iota.
  match goal with |- context [payment_valid ?p] =>
    assert (Hpv : payment_valid p = true) end.
  { unfold payment_valid. simpl. rewrite Hm.
    apply Qle_bool_iff in Hpos. rewrite Hpos. reflexivity. }
  rewrite Hpv. simpl negb. cbv iota. rewrite Hnf.
  match goal with |- context [reduce_stock ois ?x] =>
    destruct (reduce_stock_spec ois x) as ((Hrc & Hrk & Hro & Hrp & Hrn & Hri) & Hrs);
    set (s3 := reduce_stock ois x) in *; clearbody s3 end.
  simpl in Hri, Hrs. simpl. rewrite Hri.
  destruct (env_email_fails env); simpl; (split; [reflexivity|]);
    intros pid'; rewrite Hrs; simpl; rewrite (order_qty_snapshot _ _ _ _ Hf); reflexivity.
Qed.

(** C9 (amended).  Take a store meeting the schema constraints, an active
    product with stock 5, and two users whose carts each hold one line,
    quantity 5 of that product; both checkouts have no coupon code and a
    payment method that is absent or one the schemas accept, and the
    order-placed notification can be written.  Run one after the other,
    the first succeeds, the second fails with the insufficient-stock error
    and the stock ends at 0.  Run concurrently, the source has no atomic
    conditional decrement: there is an interleaving in which both read
    stock 5 and pass the stock check before either decrements; both then
    succeed, and the stock ends at -5. *)
Theorem C9_checkouts_for_last_units env s pid p uid1 uid2 c1 c2 ci1 ci2
    inp1 inp2 s1 o1 s2 o2 :
  wf_store s ->
  st_products s !! pid = Some p -> p_isActive p = true -> p_stock p = 5 ->
  uid1 <> uid2 ->
  st_carts s !! uid1 = Some c1 -> cart_items c1 = [ci1] ->
  ci_productId ci1 = pid -> ci_quantity ci1 = 5 ->
  st_carts s !! uid2 = Some c2 -> cart_items c2 = [ci2] ->
  ci_productId ci2 = pid -> ci_quantity ci2 = 5 ->
  in_userId inp1 = uid1 -> in_userId inp2 = uid2 ->
  in_couponCode inp1 = None -> in_couponCode inp2 = None ->
  valid_method (method_or_cod (in_paymentMethod inp1)) = true ->
  valid_method (method_or_cod (in_paymentMethod inp2)) = true ->
  env_notify_fails env = false ->
  createOrder env inp1 s = (s1, o1) -> createOrder env inp2 s1 = (s2, o2) ->
  ((exists oid, o1 = Success oid) /\
   o2 = Failure (ErrInsufficientStock (p_title p) 0) /\
   option_map p_stock (st_products s2 !! pid) = Some 0) /\
  (exists s' o1' o2',
    race_steps env (mkConfig s (TStart inp1) (TStart inp2))
      (mkConfig s' (TDone (Success o1')) (TDone (Success o2'))) /\
    option_map p_stock (st_products s' !! pid) = Some (-5)).
Proof.
  intros Hwf Hp Hact Hst Hu Hc1 Hi1 Hpid1 Hq1 Hc2 Hi2 Hpid2 Hq2 Hin1 Hin2 Hcc1 Hcc2
    Hm1 Hm2 Hnf Hrun1 Hrun2.
  assert (Hav : forall ci, ci_productId ci = pid -> ci_quantity ci = 5 ->
            Forall (available (st_products s)) [ci]).
  { intros ci Hpid Hq. constructor; [|constructor]. exists p. rewrite Hpid, Hq, Hst.
    split; [exact Hp|]. split; [exact Hact | lia]. }
  rewrite <- Hin1 in Hc1. rewrite <- Hin2 in Hc2.
  split.
  - destruct (checkout_plain_spec env inp1 s c1 s1 o1 Hwf Hc1
                ltac:(rewrite Hi1; discriminate)
                ltac:(rewrite Hi1; exact (Hav ci1 Hpid1 Hq1)) Hcc1 Hm1 Hrun1)
      as (oid & _ & _ & _ & Hout & _ & _ & _ & _ & _ & Hprod & Hcarts & _).
    rewrite Hnf in Hout.
    assert (Hp1 : st_products s1 !! pid = Some (add_stock (-5) p)).
    { rewrite Hprod, Hp, Hi1. simpl. rewrite Hpid1, Nat.eqb_refl, Hq1. reflexivity. }
    assert (Hc2' : st_carts s1 !! in_userId inp2 = Some c2).
    { rewrite Hcarts, Hin1, Hin2, lookup_insert_ne by exact Hu. rewrite <- Hin2. exact Hc2. }
    unfold createOrder, checkout_validate in Hrun2. rewrite Hc2', Hi2 in Hrun2.
    simpl in Hrun2. rewrite Hpid2, Hp1 in Hrun2. simpl in Hrun2.
    rewrite Hact, Hst, Hq2 in Hrun2. simpl in Hrun2.
    injection Hrun2 as <- <-.
    split; [eauto|]. split; [reflexivity|]. rewrite Hp1. simpl. rewrite Hst. reflexivity.
  - destruct (validate_plain inp1 s c1 Hc1 ltac:(rewrite Hi1; discriminate)
                ltac:(rewrite Hi1; exact (Hav ci1 Hpid1 Hq1)) Hcc1)
      as (ois1 & t1 & Hv1 & Hf1 & Ht1).
    destruct (validate_plain inp2 s c2 Hc2 ltac:(rewrite Hi2; discriminate)
                ltac:(rewrite Hi2; exact (Hav ci2 Hpid2 Hq2)) Hcc2)
      as (ois2 & t2 & Hv2 & Hf2 & Ht2).
    destruct (commit_plain env inp1 s c1 ois1 t1 s Hwf Hc1 Hf1 Ht1 Hcc1 Hm1 Hnf)
      as [Ho1 Hs1].
    destruct (checkout_commit env inp1 (mkPlan c1 ois1 (t1 - 0) 0 None) s)
      as [sa oa] eqn:E1.
    simpl in Ho1, Hs1. subst oa.
    destruct (commit_plain env inp2 s c2 ois2 t2 sa Hwf Hc2 Hf2 Ht2 Hcc2 Hm2 Hnf)
      as [Ho2 Hs2].
    destruct (checkout_commit env inp2 (mkPlan c2 ois2 (t2 - 0) 0 None) sa)
      as [sb ob] eqn:E2.
    simpl in Ho2, Hs2. subst ob.
    exists sb, (st_nextId s), (st_nextId sa). split.
    + eapply race_trans; [apply race_step_a; unfold thread_step; rewrite Hv1; reflexivity|].
      eapply race_trans; [apply race_step_b; unfold thread_step; rewrite Hv2; reflexivity|].
      eapply race_trans; [apply race_step_a; unfold thread_step; rewrite E1; reflexivity|].
      eapply race_trans; [apply race_step_b; unfold thread_step; rewrite E2; reflexivity|].
      apply race_refl.
    + rewrite Hs2, Hs1, Hp, Hi1, Hi2. simpl.
      rewrite Hpid1, Hpid2, Nat.eqb_refl, Hq1, Hq2. simpl. rewrite Hst. reflexivity.
Qed.

Lemma C9_checkouts_for_last_units_witness :
  ((exists oid, snd (createOrder ex_env ex_plain ex_race_store) = Success oid) /\
   snd (createOrder ex_env ex_plain8 (fst (createOrder ex_env ex_plain ex_race_store))) =
     Failure (ErrInsufficientStock "Mouse" 0) /\
   option_map p_stock (st_products (fst (createOrder ex_env ex_plain8
      (fst (createOrder ex_env ex_plain ex_race_store)))) !! 1%nat) = Some 0) /\
  (exists s' o1' o2',
    race_steps ex_env (mkConfig ex_race_store (TStart ex_plain) (TStart ex_plain8))
      (mkConfig s' (TDone (Success o1')) (TDone (Success o2'))) /\
    option_map p_stock (st_products s' !! 1%nat) = Some (-5)).
Proof.
  apply (C9_checkouts_for_last_units ex_env ex_race_store 1 ex_mouse 7 8
           (mkCart 7 [mkCartItem 1 5 15%Q] 75%Q) (mkCart 8 [mkCartItem 1 5 15%Q] 75%Q)
           (mkCartItem 1 5 15%Q) (mkCartItem 1 5 15%Q) ex_plain ex_plain8
           (fst (createOrder ex_env ex_plain ex_race_store))
           (snd (createOrder ex_env ex_plain ex_race_store))
           (fst (createOrder ex_env ex_plain8 (fst (createOrder ex_env ex_plain ex_race_store))))
           (snd (createOrder ex_env ex_plain8 (fst (createOrder ex_env ex_plain ex_race_store)))));
    first [exact ex_race_store_wf | discriminate | vm_compute; reflexivity].
Defined.

(** ** Coupon usage *)

Lemma reduce_stock_log items s :
  exists l, st_log (reduce_stock items s) = st_log s ++ l.
Proof.
  revert s. induction items as [|oi rest IH]; intros s; simpl.
  - exists []. symmetry. apply app_nil_r.
  - destruct (IH (inc_stock (oi_productId oi) (- oi_quantity oi) s)) as [l ->].
    exists (EvStockInc (oi_productId oi) (- oi_quantity oi) :: l). simpl.
    rewrite <- app_assoc. reflexivity.
Qed.

Lemma order_valid_payment_valid uid ois tot disc cc pm pid st :
  order_valid (mkOrder uid ois tot disc cc PSPending OSPending pm None) = true ->
  payment_valid (mkPayment pid uid tot pm st) = true.
Proof.
  unfold order_valid, payment_valid. simpl.
  intros H. apply andb_prop in H as [H _]. apply andb_prop in H as [H Hm].
  apply andb_prop in H as [H _]. rewrite H, Hm. reflexivity.
Qed.

(** A checkout that fails for any reason other than the notification
    leaves every coupon as it was. *)
Lemma createOrder_failure_coupons env inp s s' e :
  createOrder env inp s = (s', Failure e) -> e <> ErrNotification ->
  st_coupons s' = st_coupons s.
Proof.
  unfold createOrder. destruct (checkout_validate inp s) as [plan|e'];
    [|intros H _; injection H as <- _; reflexivity].
  unfold checkout_commit. cbv zeta.
  destruct (order_valid _) eqn:Hov; simpl negb; cbv iota;
    [|intros H _; injection H as <- _; reflexivity].
  rewrite (order_valid_payment_valid _ _ _ _ _ _ _ _ Hov). simpl negb. cbv iota.
  destruct (env_notify_fails env); [intros H Hne; injection H as _ <-; congruence|].
  intros H; injection H as _ H; discriminate.
Qed.

(** A successful checkout that applies a coupon stores it back with
    [usedCount + 1], and that write comes right after the creation of the
    order. *)
Lemma createOrder_success_coupon env inp s plan code c s' oid :
  checkout_validate inp s = ROk plan -> pl_coupon plan = Some (code, c) ->
  st_coupons s !! code = Some c ->
  createOrder env inp s = (s', Success oid) ->
  st_coupons s' !! code = Some (set_usedCount (c_usedCount c + 1) c) /\
  exists post, st_log s' = st_log s ++ EvOrderCreated oid :: EvCouponSaved code :: post.
Proof.
  intros Hv Hpc Hc. unfold createOrder. rewrite Hv.
  destruct plan as [cart ois tot disc cp]. simpl in Hpc. subst cp.
  unfold checkout_commit. cbv zeta. cbn [pl_items pl_total pl_cart pl_discount pl_coupon].
  destruct (order_valid _) eqn:Hov; simpl negb; cbv iota; [|discriminate].
  rewrite (order_valid_payment_valid _ _ _ _ _ _ _ _ Hov). simpl negb. cbv iota.
  destruct (env_notify_fails env); [discriminate|].
  match goal with |- context [reduce_stock ois ?x] =>
    destruct (reduce_stock_spec ois x) as ((Hrc & Hrk & Hro & Hrp & Hrn & Hri) & _);
    destruct (reduce_stock_log ois x) as [l Hl];
    set (s3 := reduce_stock ois x) in *; clearbody s3 end.
  simpl in Hrk, Hl.
  destruct (env_email_fails env); intros H; injection H as <- <-; simpl;
    (split; [rewrite Hrk, lookup_alter_eq, Hc; reflexivity|]);
    eexists; rewrite Hl, <- !app_assoc; reflexivity.
Qed.

(** [cancelOrder] never touches a coupon. *)
Lemma cancelOrder_coupons oid uid s :
  st_coupons (fst (cancelOrder oid uid s)) = st_coupons s.
Proof.
  unfold cancelOrder.
  destruct (st_orders s !! oid) as [order|]; [|reflexivity].
  destruct (Nat.eqb (o_userId order) uid); [|reflexivity].
  destruct (cancellable_check (o_orderStatus order)); [reflexivity|].
  destruct (restore_stock_spec (o_items order) s) as ((_ & Hk & _) & _).
  destruct (o_paymentId (set_cancelled order)); simpl; exact Hk.
Qed.

(** ** C10 *)

(** C10 (code bug).  A checkout applying SAVE10 whose order-placed
    notification write throws: [createOrder] reports failure, yet the
    coupon's [usedCount] has already gone from 0 to 1. *)
Lemma C10_failed_checkout_consumes_coupon :
  option_map c_usedCount (st_coupons ex_store_save10 !! "SAVE10"%string) = Some 0 /\
  snd (createOrder ex_env_notify_down ex_save10_inp ex_store_save10) = Failure ErrNotification /\
  option_map c_usedCount
    (st_coupons (fst (createOrder ex_env_notify_down ex_save10_inp ex_store_save10))
       !! "SAVE10"%string) = Some 1.
Proof. vm_compute. repeat split. Qed.

(** * More of the handlers: orders, payments and carts *)

(** ** Order handlers *)

Lemma cancelOrder_success_spec oid uid s s1 x :
  cancelOrder oid uid s = (s1, Success x) ->
  exists order, st_orders s !! oid = Some order /\ o_userId order = uid /\
    cancellable_check (o_orderStatus order) = None /\ x = oid /\
    st_orders s1 = <[oid := set_cancelled order]> (st_orders s) /\
    (forall pid, st_products s1 !! pid =
       add_stock (order_qty pid (o_items order)) <$> st_products s !! pid) /\
    st_payments s1 = match o_paymentId order with
                     | Some pid => alter (set_pay_status PayRefunded) pid (st_payments s)
                     | None => st_payments s
                     end /\
    st_carts s1 = st_carts s /\ st_coupons s1 = st_coupons s /\
    st_notifications s1 = st_notifications s /\ st_nextId s1 = st_nextId s.
Proof.
  unfold cancelOrder.
  destruct (st_orders s !! oid) as [order|] eqn:Ho; [|discriminate].
  destruct (Nat.eqb_spec (o_userId order) uid) as [Hu|]; [|discriminate].
  destruct (cancellable_check (o_orderStatus order)) eqn:Hc; [discriminate|].
  destruct (restore_stock_spec (o_items order) s) as ((Hc' & Hk & Ho' & Hp & Hn & Hi) & Hs).
  set (s' := restore_stock (o_items order) s) in *. clearbody s'.
  intros H. exists order.
  change (o_paymentId (set_cancelled order)) with (o_paymentId order) in H.
  destruct (o_paymentId order) as [pid|]; injection H as <- <-; simpl;
    rewrite ?Hc', ?Hk, ?Ho', ?Hp, ?Hn, ?Hi;
    (split; [reflexivity|]); (split; [exact Hu|]); (split; [exact Hc|]);
    (split; [reflexivity|]); (split; [reflexivity|]); (split; [exact Hs|]);
    repeat split.
Qed.

Lemma createOrder_cases env inp s :
  (fst (createOrder env inp s) = s /\ exists e, snd (createOrder env inp s) = Failure e) \/
  exists plan, checkout_validate inp s = ROk plan /\
    let oid := st_nextId s in
    let s1 := fst (createOrder env inp s) in
    let order := mkOrder (in_userId inp) (pl_items plan) (pl_total plan) (pl_discount plan)
        (if js_truthy_str (in_couponCode inp)
         then option_map to_upper (in_couponCode inp) else None)
        PSPending OSPending (method_or_cod (in_paymentMethod inp)) None in
    order_valid order = true /\
    snd (createOrder env inp s) =
      (if env_notify_fails env then Failure ErrNotification else Success oid) /\
    st_orders s1 = <[oid := set_paymentId (S oid) order]> (st_orders s) /\
    st_payments s1 = <[S oid := mkPayment oid (in_userId inp) (pl_total plan)
        (method_or_cod (in_paymentMethod inp))
        (if option_str_eqb (in_paymentMethod inp) "COD" then PayPending else PayProcessing)]>
        (st_payments s) /\
    (forall pid, st_products s1 !! pid =
       add_stock (- order_qty pid (pl_items plan)) <$> st_products s !! pid) /\
    st_carts s1 = <[in_userId inp := cart_save (clear_items (pl_cart plan))]> (st_carts s) /\
    st_coupons s1 = match pl_coupon plan with
                    | Some (code, c) => alter (set_usedCount (c_usedCount c + 1)) code (st_coupons s)
                    | None => st_coupons s
                    end /\
    st_nextId s1 = S (S oid).
Proof.
  unfold createOrder. destruct (checkout_validate inp s) as [plan|e] eqn:Hv;
    [|left; split; [reflexivity|exists e; reflexivity]].
  unfold checkout_commit. cbv zeta.
  destruct (order_valid _) eqn:Hov; simpl negb; cbv iota;
    [|left; split; [reflexivity|eexists; reflexivity]].
  rewrite (order_valid_payment_valid _ _ _ _ _ _ _ _ Hov). simpl negb. cbv iota.
  match goal with |- context [reduce_stock (pl_items plan) ?x] =>
    destruct (reduce_stock_spec (pl_items plan) x) as ((Hrc & Hrk & Hro & Hrp & Hrn & Hri) & Hrs);
    set (s3 := reduce_stock (pl_items plan) x) in *; clearbody s3 end.
  right. exists plan. split; [reflexivity|].
  destruct (pl_coupon plan) as [[code c]|]; simpl in Hrc, Hrk, Hro, Hrp, Hrn, Hri, Hrs;
  (destruct (env_notify_fails env); [|destruct (env_email_fails env)]); simpl;
    rewrite ?Hrc, ?Hrk, ?Hro, ?Hrp, ?Hri; simpl;
    (split; [exact Hov|]); (split; [reflexivity|]);
    (split; [rewrite insert_insert_eq; reflexivity|]);
    (split; [reflexivity|]);
    (split; [exact Hrs|]); repeat split.
Qed.

Lemma createOrder_success_spec env inp s s1 oid :
  createOrder env inp s = (s1, Success oid) ->
  exists plan, checkout_validate inp s = ROk plan /\ oid = st_nextId s /\
    let order := mkOrder (in_userId inp) (pl_items plan) (pl_total plan) (pl_discount plan)
        (if js_truthy_str (in_couponCode inp)
         then option_map to_upper (in_couponCode inp) else None)
        PSPending OSPending (method_or_cod (in_paymentMethod inp)) None in
    st_orders s1 = <[oid := set_paymentId (S oid) order]> (st_orders s) /\
    st_payments s1 = <[S oid := mkPayment oid (in_userId inp) (pl_total plan)
        (method_or_cod (in_paymentMethod inp))
        (if option_str_eqb (in_paymentMethod inp) "COD" then PayPending else PayProcessing)]>
        (st_payments s) /\
    (forall pid, st_products s1 !! pid =
       add_stock (- order_qty pid (pl_items plan)) <$> st_products s !! pid) /\
    st_nextId s1 = S (S oid).
Proof.
  intros H. destruct (createOrder_cases env inp s) as [[_ [e He]]|(plan & Hv & Hc)];
    rewrite H in *; simpl in *; [discriminate|].
  destruct Hc as (_ & Hout & Ho & Hp & Hs & _ & _ & Hn).
  assert (oid = st_nextId s) as ->
    by (destruct (env_notify_fails env); congruence).
  exists plan. split; [exact Hv|]. split; [reflexivity|]. auto.
Qed.

Lemma cancelOrder_failure_spec oid uid s s' e :
  cancelOrder oid uid s = (s', Failure e) ->
  s' = s /\
  ((e = ErrOrderNotFound /\ forall o, st_orders s !! oid = Some o -> o_userId o <> uid) \/
   exists o, st_orders s !! oid = Some o /\ o_userId o = uid /\
     ((e = ErrAlreadyCancelled /\ o_orderStatus o = OSCancelled) \/
      (e = ErrNotCancellable /\
       (o_orderStatus o = OSShipped \/ o_orderStatus o = OSDelivered)))).
Proof.
  unfold cancelOrder.
  destruct (st_orders s !! oid) as [order|] eqn:Ho;
    [|intros Hr; injection Hr as <- <-; split; [reflexivity|left; split; congruence]].
  destruct (Nat.eqb_spec (o_userId order) uid) as [Hu|Hu];
    [|intros Hr; injection Hr as <- <-; split; [reflexivity|left; split; congruence]].
  destruct (o_orderStatus order) eqn:Hst; simpl;
    try (intros Hr; injection Hr as <- <-; split; [reflexivity|];
         right; exists order; split; [reflexivity|split; [exact Hu|]];
         first [left; split; [reflexivity|exact Hst]
               |right; split; [reflexivity|auto]]);
    destruct (o_paymentId order); intros Hr; injection Hr as _ Hr; discriminate.
Qed.

(** X3.  A failing [cancelOrder] writes nothing.  It fails with
    "order not found" exactly when the order is missing or belongs to
    another user, with "already cancelled" on a cancelled order of the
    caller, and with "cannot be cancelled" on a shipped or delivered one. *)
Lemma cancelOrder_failure oid uid s s' e :
  cancelOrder oid uid s = (s', Failure e) ->
  s' = s /\
  ((e = ErrOrderNotFound /\ forall o, st_orders s !! oid = Some o -> o_userId o <> uid) \/
   exists o, st_orders s !! oid = Some o /\ o_userId o = uid /\
     ((e = ErrAlreadyCancelled /\ o_orderStatus o = OSCancelled) \/
      (e = ErrNotCancellable /\
       (o_orderStatus o = OSShipped \/ o_orderStatus o = OSDelivered)))).
Proof. exact (cancelOrder_failure_spec oid uid s s' e). Qed.

(** X4.  Cancelling the same order a second time fails with
    "already cancelled" and changes nothing: the stock is restored only
    once. *)
Lemma cancelOrder_twice oid uid s s1 :
  cancelOrder oid uid s = (s1, Success oid) ->
  cancelOrder oid uid s1 = (s1, Failure ErrAlreadyCancelled).
Proof.
  intros H. destruct (cancelOrder_success_spec _ _ _ _ _ H)
    as (order & _ & Hu & _ & _ & Ho & _).
  unfold cancelOrder. rewrite Ho, lookup_insert_eq. simpl.
  rewrite Hu, Nat.eqb_refl. reflexivity.
Qed.

(** X2.  The owner can cancel an order right after a successful checkout
    created it, and the cancellation puts every product's stock back to
    what it was before the checkout. *)
Lemma createOrder_then_cancelOrder env inp s s1 oid :
  createOrder env inp s = (s1, Success oid) ->
  exists s2, cancelOrder oid (in_userId inp) s1 = (s2, Success oid) /\
    st_products s2 = st_products s.
Proof.
  intros H. destruct (createOrder_success_spec _ _ _ _ _ H)
    as (plan & _ & -> & Ho & _ & Hp & _).
  unfold cancelOrder. rewrite Ho, lookup_insert_eq. simpl. rewrite Nat.eqb_refl.
  destruct (restore_stock_spec (pl_items plan) s1) as (_ & Hs).
  eexists. split; [reflexivity|]. simpl.
  apply map_eq. intros k. rewrite Hs, Hp.
  destruct (st_products s !! k); simpl; [|reflexivity].
  rewrite add_stock_add. replace (- order_qty k (pl_items plan) + order_qty k (pl_items plan))
    with 0 by lia. rewrite add_stock_0. reflexivity.
Qed.

Lemma alter_pay_status_orderId st pid (m : gmap nat Payment) k :
  option_map pay_orderId (alter (set_pay_status st) pid m !! k) =
  option_map pay_orderId (m !! k).
Proof.
  destruct (decide (pid = k)) as [<-|Hne].
  - rewrite lookup_alter_eq. destruct (m !! pid); reflexivity.
  - rewrite lookup_alter_ne by exact Hne. reflexivity.
Qed.

Lemma orderId_lookup (m m' : gmap nat Payment) k p :
  option_map pay_orderId (m' !! k) = option_map pay_orderId (m !! k) ->
  m' !! k = Some p -> exists p0, m !! k = Some p0 /\ pay_orderId p0 = pay_orderId p.
Proof.
  intros E H. rewrite H in E. destruct (m !! k) as [p0|]; [|discriminate].
  exists p0. injection E as E. auto.
Qed.

(** X1.  [createOrder] keeps the store invariants, whatever its outcome:
    the schema constraints ([wf_store]), well-formed carts ([carts_ok]) and
    payments that only refer to orders created before them
    ([payments_ok]). *)
Lemma createOrder_keeps_invariants env inp s :
  wf_store s -> carts_ok s -> payments_ok s ->
  wf_store (fst (createOrder env inp s)) /\ carts_ok (fst (createOrder env inp s)) /\
  payments_ok (fst (createOrder env inp s)).
Proof.
  intros Hw Hco Hpo.
  destruct (createOrder_cases env inp s) as [[-> _]|(plan & Hv & Hc)]; [auto|].
  set (s1 := fst (createOrder env inp s)) in *. clearbody s1. cbv zeta in Hc.
  destruct Hc as (_ & _ & Ho & Hp & Hs & Hc & _ & Hn).
  destruct (checkout_validate_ok _ _ _ Hv) as (t & Hcart & _).
  destruct Hw as (Hwp & Hwc & Hwid).
  split; [split; [|split]|split].
  - intros id p Hl. rewrite Hs in Hl.
    destruct (st_products s !! id) as [p0|] eqn:E; simpl in Hl; [|discriminate].
    injection Hl as <-. exact (Hwp _ _ E).
  - intros uid c Hl. rewrite Hc in Hl.
    apply lookup_insert_Some in Hl as [[_ <-]|[_ Hl]]; [constructor|exact (Hwc _ _ Hl)].
  - intros k Hk. rewrite Hn in Hk. rewrite Ho, Hp.
    rewrite !lookup_insert_ne by lia. apply Hwid. lia.
  - intros uid c Hl. rewrite Hc in Hl.
    apply lookup_insert_Some in Hl as [[<- <-]|[_ Hl]]; [|exact (Hco _ _ Hl)].
    simpl. destruct (Hco _ _ Hcart) as (Hu & _).
    split; [exact Hu|]. split; [constructor|]. split; [constructor|reflexivity].
  - intros k p Hl. rewrite Hn. rewrite Hp in Hl.
    apply lookup_insert_Some in Hl as [[_ <-]|[_ Hl]]; simpl; [lia|].
    specialize (Hpo _ _ Hl). lia.
Qed.

(** X5.  [cancelOrder] keeps [wf_store], [carts_ok] and [payments_ok]. *)
Lemma cancelOrder_keeps_invariants oid uid s :
  wf_store s -> carts_ok s -> payments_ok s ->
  wf_store (fst (cancelOrder oid uid s)) /\ carts_ok (fst (cancelOrder oid uid s)) /\
  payments_ok (fst (cancelOrder oid uid s)).
Proof.
  intros Hw Hco Hpo.
  destruct (cancelOrder oid uid s) as [s1 [x|e]] eqn:H; simpl;
    [|destruct (cancelOrder_failure_spec _ _ _ _ _ H) as [-> _]; auto].
  destruct (cancelOrder_success_spec _ _ _ _ _ H)
    as (order & Hord & _ & _ & _ & Ho & Hs & Hp & Hc & _ & _ & Hn).
  assert (Hpay : forall k, option_map pay_orderId (st_payments s1 !! k) =
                           option_map pay_orderId (st_payments s !! k)).
  { intros k. rewrite Hp. destruct (o_paymentId order);
      [apply alter_pay_status_orderId|reflexivity]. }
  destruct Hw as (Hwp & Hwc & Hwid).
  split; [split; [|split]|split].
  - intros id p Hl. rewrite Hs in Hl.
    destruct (st_products s !! id) as [p0|] eqn:E; simpl in Hl; [|discriminate].
    injection Hl as <-. exact (Hwp _ _ E).
  - intros u c Hl. rewrite Hc in Hl. exact (Hwc _ _ Hl).
  - intros k Hk. rewrite Hn in Hk. destruct (Hwid k Hk) as [Hk1 Hk2]. split.
    + rewrite Ho. rewrite lookup_insert_ne; [exact Hk1|]. congruence.
    + specialize (Hpay k). rewrite Hk2 in Hpay.
      destruct (st_payments s1 !! k); [discriminate|reflexivity].
  - intros u c Hl. rewrite Hc in Hl. exact (Hco _ _ Hl).
  - intros k p Hl. rewrite Hn.
    destruct (orderId_lookup _ _ _ _ (Hpay k) Hl) as (p0 & Hl0 & <-).
    exact (Hpo _ _ Hl0).
Qed.

(** ** updateOrderStatus *)

Lemma parse_order_status_nonempty str st :
  parse_order_status str = Some st -> js_truthy_str (Some str) = true.
Proof. destruct str; [discriminate|reflexivity]. Qed.

Lemma updateOrderStatus_spec env oid str st s order :
  st_orders s !! oid = Some order -> parse_order_status str = Some st ->
  st_orders (fst (updateOrderStatus env oid (Some str) s)) =
    <[oid := set_orderStatus st order]> (st_orders s) /\
  st_products (fst (updateOrderStatus env oid (Some str) s)) = st_products s /\
  st_payments (fst (updateOrderStatus env oid (Some str) s)) = st_payments s /\
  st_carts (fst (updateOrderStatus env oid (Some str) s)) = st_carts s /\
  st_coupons (fst (updateOrderStatus env oid (Some str) s)) = st_coupons s /\
  st_nextId (fst (updateOrderStatus env oid (Some str) s)) = st_nextId s /\
  snd (updateOrderStatus env oid (Some str) s) =
    (if env_notify_fails env then Failure ErrNotification else Success oid).
Proof.
  intros Ho Hp. unfold updateOrderStatus. rewrite Ho.
  rewrite (parse_order_status_nonempty _ _ Hp), Hp. simpl.
  destruct (env_notify_fails env); repeat split.
Qed.

(** X6.  For an existing order and any status of the enum, [updateOrderStatus]
    stores that status whatever the current one is (there is no transition
    check), leaves stock, payments, carts and coupons untouched, and reports
    a notification failure only after the order has been saved. *)
Lemma updateOrderStatus_sets_status env oid str st s order s1 out :
  st_orders s !! oid = Some order -> parse_order_status str = Some st ->
  updateOrderStatus env oid (Some str) s = (s1, out) ->
  st_orders s1 !! oid = Some (set_orderStatus st order) /\
  st_products s1 = st_products s /\ st_payments s1 = st_payments s /\
  st_carts s1 = st_carts s /\ st_coupons s1 = st_coupons s /\
  out = (if env_notify_fails env then Failure ErrNotification else Success oid).
Proof.
  intros Ho Hp H.
  destruct (updateOrderStatus_spec env oid str st s order Ho Hp)
    as (Hor & Hpr & Hpa & Hc & Hk & _ & Hout).
  rewrite H in Hor, Hpr, Hpa, Hc, Hk, Hout. simpl in *.
  rewrite Hor, lookup_insert_eq. repeat split; assumption.
Qed.

(** X7.  [updateOrderStatus] fails without any write only when the order is
    missing, or when the status is a non-empty string outside the enum; its
    only other failure is a notification failure, after the order has been
    saved. *)
Lemma updateOrderStatus_failure env oid os s s1 e :
  updateOrderStatus env oid os s = (s1, Failure e) ->
  (e = ErrOrderNotFound /\ st_orders s !! oid = None /\ s1 = s) \/
  (e = ErrValidation /\ s1 = s /\
   exists str, os = Some str /\ str <> ""%string /\ parse_order_status str = None) \/
  (e = ErrNotification /\ env_notify_fails env = true /\
   exists order', st_orders s1 = <[oid := order']> (st_orders s)).
Proof.
  unfold updateOrderStatus.
  destruct (st_orders s !! oid) as [order|] eqn:Ho;
    [|intros H; injection H as <- <-; left; auto].
  destruct os as [str|].
  - destruct (js_truthy_str (Some str)) eqn:Ht.
    + destruct (parse_order_status str) as [st|] eqn:Hp; simpl.
      * destruct (env_notify_fails env) eqn:Hn; intros H; injection H as <- H;
          [|discriminate].
        right; right. subst e. split; [reflexivity|]. split; [reflexivity|].
        eexists. reflexivity.
      * intros H; injection H as <- <-. right; left. split; [reflexivity|].
        split; [reflexivity|]. exists str. split; [reflexivity|]. split; [|exact Hp].
        intros ->. discriminate.
    + destruct (env_notify_fails env) eqn:Hn; intros H; injection H as <- H;
        [|discriminate].
      right; right. subst e. split; [reflexivity|]. split; [reflexivity|].
      eexists. reflexivity.
  - destruct (env_notify_fails env) eqn:Hn; intros H; injection H as <- H; [|discriminate].
    right; right. subst e. split; [reflexivity|]. split; [reflexivity|].
    eexists. reflexivity.
Qed.

(** X8.  An admin setting an order to "cancelled" restores no stock and
    refunds no payment, and the owner can then no longer cancel it:
    [cancelOrder] answers "already cancelled". *)
Lemma updateOrderStatus_cancelled_blocks_cancelOrder env oid s order s1 out :
  st_orders s !! oid = Some order ->
  updateOrderStatus env oid (Some "cancelled"%string) s = (s1, out) ->
  st_products s1 = st_products s /\ st_payments s1 = st_payments s /\
  cancelOrder oid (o_userId order) s1 = (s1, Failure ErrAlreadyCancelled).
Proof.
  intros Ho H.
  destruct (updateOrderStatus_spec env oid "cancelled" OSCancelled s order Ho eq_refl)
    as (Hor & Hpr & Hpa & _).
  rewrite H in Hor, Hpr, Hpa. simpl in *.
  split; [exact Hpr|]. split; [exact Hpa|].
  unfold cancelOrder. rewrite Hor, lookup_insert_eq. simpl.
  rewrite Nat.eqb_refl. reflexivity.
Qed.

(** X9.  Cancelling an order, setting it back to "pending" through
    [updateOrderStatus], and cancelling it again succeeds and restores the
    order's quantities to the stock twice. *)
Lemma cancel_reopen_cancel env oid uid s order s1 s2 out2 :
  st_orders s !! oid = Some order ->
  cancelOrder oid uid s = (s1, Success oid) ->
  updateOrderStatus env oid (Some "pending"%string) s1 = (s2, out2) ->
  exists s3, cancelOrder oid uid s2 = (s3, Success oid) /\
    forall pid, st_products s3 !! pid =
      add_stock (2 * order_qty pid (o_items order)) <$> st_products s !! pid.
Proof.
  intros Ho H1 H2.
  destruct (cancelOrder_success_spec _ _ _ _ _ H1)
    as (order0 & Ho0 & Hu & _ & _ & Ho1 & Hs1 & _).
  rewrite Ho in Ho0. injection Ho0 as <-.
  assert (Hl1 : st_orders s1 !! oid = Some (set_cancelled order))
    by (rewrite Ho1; apply lookup_insert_eq).
  destruct (updateOrderStatus_spec env oid "pending" OSPending s1 _ Hl1 eq_refl)
    as (Hor & Hpr & _).
  rewrite H2 in Hor, Hpr. simpl in Hor, Hpr.
  unfold cancelOrder. rewrite Hor, lookup_insert_eq. simpl. rewrite Hu, Nat.eqb_refl.
  destruct (restore_stock_spec (o_items order) s2) as (_ & Hs).
  set (s3 := restore_stock (o_items order) s2) in *. clearbody s3.
  assert (Hp : forall pid, st_products s3 !! pid =
      add_stock (2 * order_qty pid (o_items order)) <$> st_products s !! pid).
  { intros pid. rewrite Hs, Hpr, Hs1. destruct (st_products s !! pid); simpl; [|reflexivity].
    rewrite add_stock_add. do 2 f_equal. lia. }
  destruct (o_paymentId order); eexists; (split; [reflexivity|exact Hp]).
Qed.

(** ** processCOD *)

Lemma find_seq_first (f : nat -> bool) a n x :
  (a <= x < a + n)%nat -> f x = true -> (forall y, (a <= y < x)%nat -> f y = false) ->
  find f (seq a n) = Some x.
Proof.
  revert a. induction n as [|n IH]; intros a Hx Hfx Hlt; [lia|].
  simpl. destruct (Nat.eq_dec a x) as [<-|Hne]; [rewrite Hfx; reflexivity|].
  rewrite (Hlt a) by lia. apply IH; [lia|exact Hfx|]. intros y Hy. apply Hlt. lia.
Qed.

Lemma find_ext_list {A} (f g : A -> bool) l :
  (forall x, f x = g x) -> find f l = find g l.
Proof. intros E. induction l as [|x l IH]; simpl; [reflexivity|]. rewrite E, IH. reflexivity. Qed.

Lemma find_payment_of_ext oid s s' :
  st_nextId s' = st_nextId s ->
  (forall k, option_map pay_orderId (st_payments s' !! k) =
             option_map pay_orderId (st_payments s !! k)) ->
  find_payment_of oid s' = find_payment_of oid s.
Proof.
  intros Hn Hk. unfold find_payment_of. rewrite Hn. apply find_ext_list. intros k.
  specialize (Hk k). destruct (st_payments s' !! k), (st_payments s !! k);
    simpl in Hk; try discriminate; [|reflexivity]. injection Hk as ->. reflexivity.
Qed.

Lemma processCOD_store_effects oid uid s :
  st_orders (fst (processCOD oid uid s)) = st_orders s /\
  st_products (fst (processCOD oid uid s)) = st_products s /\
  st_carts (fst (processCOD oid uid s)) = st_carts s /\
  st_coupons (fst (processCOD oid uid s)) = st_coupons s /\
  st_nextId (fst (processCOD oid uid s)) = st_nextId s /\
  (st_payments (fst (processCOD oid uid s)) = st_payments s \/
   exists pid, find_payment_of oid s = Some pid /\
     st_payments (fst (processCOD oid uid s)) =
       alter (set_pay_status PayPending) pid (st_payments s)).
Proof.
  unfold processCOD. destruct (st_orders s !! oid) as [order|];
    [|repeat split; left; reflexivity].
  destruct (Nat.eqb (o_userId order) uid); [|repeat split; left; reflexivity].
  destruct (negb _); [repeat split; left; reflexivity|].
  destruct (find_payment_of oid s) as [pid|] eqn:Hf; [|repeat split; left; reflexivity].
  simpl. repeat split. right. exists pid. auto.
Qed.

(** X10.  [processCOD] never touches orders, products, carts, coupons or the
    id counter; at most it sets the status of the first payment of the
    order to pending. *)
Lemma processCOD_effects oid uid s :
  st_orders (fst (processCOD oid uid s)) = st_orders s /\
  st_products (fst (processCOD oid uid s)) = st_products s /\
  st_carts (fst (processCOD oid uid s)) = st_carts s /\
  st_coupons (fst (processCOD oid uid s)) = st_coupons s /\
  st_nextId (fst (processCOD oid uid s)) = st_nextId s /\
  (st_payments (fst (processCOD oid uid s)) = st_payments s \/
   exists pid, find_payment_of oid s = Some pid /\
     st_payments (fst (processCOD oid uid s)) =
       alter (set_pay_status PayPending) pid (st_payments s)).
Proof. exact (processCOD_store_effects oid uid s). Qed.

(** X11.  A failing [processCOD] writes nothing.  It fails with
    "order not found" when the order is missing or belongs to another user,
    and with "not COD" when the caller's order has another payment
    method. *)
Lemma processCOD_failure oid uid s s1 e :
  processCOD oid uid s = (s1, Fail e) -> s1 = s /\
  ((e = AEOrderNotFound /\ forall o, st_orders s !! oid = Some o -> o_userId o <> uid) \/
   (e = AENotCOD /\ exists o, st_orders s !! oid = Some o /\ o_userId o = uid /\
                              o_paymentMethod o <> "COD"%string)).
Proof.
  unfold processCOD. destruct (st_orders s !! oid) as [order|] eqn:Ho;
    [|intros H; injection H as <- <-; split; [reflexivity|left; split; congruence]].
  destruct (Nat.eqb_spec (o_userId order) uid) as [Hu|Hu].
  - destruct (String.eqb_spec (o_paymentMethod order) "COD") as [Hm|Hm]; simpl.
    + destruct (find_payment_of oid s); discriminate.
    + intros H; injection H as <- <-. split; [reflexivity|right].
      split; [reflexivity|]. exists order. auto.
  - intros H; injection H as <- <-. split; [reflexivity|left].
    split; [reflexivity|]. intros o Ho'. congruence.
Qed.

(** X12.  On a store whose payments refer to earlier orders, a checkout whose
    method is COD (given or defaulted) followed by [processCOD] by the same
    user succeeds and leaves the order's payment pending, also when the
    checkout stored it as processing. *)
Lemma createOrder_then_processCOD env inp s s1 oid :
  payments_ok s -> method_or_cod (in_paymentMethod inp) = "COD"%string ->
  createOrder env inp s = (s1, Success oid) ->
  exists s2 total, processCOD oid (in_userId inp) s1 = (s2, Done) /\
    st_payments s2 !! S oid = Some (mkPayment oid (in_userId inp) total "COD" PayPending) /\
    st_orders s2 = st_orders s1.
Proof.
  intros Hok Hm H.
  destruct (createOrder_success_spec env inp s s1 oid H)
    as (plan & _ & -> & Ho & Hp & _ & Hn).
  assert (Hf : find_payment_of (st_nextId s) s1 = Some (S (st_nextId s))).
  { unfold find_payment_of. rewrite Hn. apply find_seq_first; [lia| |].
    - rewrite Hp, lookup_insert_eq. simpl. apply Nat.eqb_refl.
    - intros y Hy. rewrite Hp, lookup_insert_ne by lia.
      destruct (st_payments s !! y) as [p|] eqn:Hy'; [|reflexivity].
      apply Nat.eqb_neq. specialize (Hok y p Hy'). lia. }
  unfold processCOD. rewrite Ho, lookup_insert_eq. simpl. rewrite Nat.eqb_refl, Hm. simpl.
  rewrite Hf. eexists; exists (pl_total plan). split; [reflexivity|]. simpl.
  split; [|rewrite Ho, Hm; reflexivity].
  rewrite lookup_alter_eq, Hp, lookup_insert_eq. simpl. rewrite Hm. reflexivity.
Qed.

(** X13.  [processCOD] does not check the order status: after a COD order is
    cancelled, [processCOD] still succeeds and sets its payment back to
    pending, while the order stays cancelled. *)
Lemma cancelOrder_then_processCOD oid uid s s1 order pid :
  st_orders s !! oid = Some order -> o_paymentMethod order = "COD"%string ->
  find_payment_of oid s = Some pid ->
  cancelOrder oid uid s = (s1, Success oid) ->
  exists s2, processCOD oid uid s1 = (s2, Done) /\
    st_orders s2 !! oid = Some (set_cancelled order) /\
    st_payments s2 !! pid = set_pay_status PayPending <$> st_payments s !! pid.
Proof.
  intros Ho Hm Hf H.
  destruct (cancelOrder_success_spec _ _ _ _ _ H)
    as (order0 & Ho0 & Hu & _ & _ & Ho1 & _ & Hpay & _ & _ & _ & Hn).
  rewrite Ho in Ho0. injection Ho0 as <-.
  assert (Hf1 : find_payment_of oid s1 = Some pid).
  { rewrite <- Hf. apply find_payment_of_ext; [exact Hn|]. intros k. rewrite Hpay.
    destruct (o_paymentId order); [apply alter_pay_status_orderId|reflexivity]. }
  unfold processCOD. rewrite Ho1, lookup_insert_eq. simpl. rewrite Hu, Nat.eqb_refl.
  change (o_paymentMethod (set_cancelled order)) with (o_paymentMethod order).
  rewrite Hm. simpl. rewrite Hf1. eexists. split; [reflexivity|]. simpl.
  split; [rewrite Ho1; apply lookup_insert_eq|].
  rewrite lookup_alter_eq, Hpay. destruct (o_paymentId order) as [q|]; [|reflexivity].
  destruct (decide (q = pid)) as [<-|Hne].
  - rewrite lookup_alter_eq. destruct (st_payments s !! q); reflexivity.
  - rewrite lookup_alter_ne by exact Hne. reflexivity.
Qed.

(** ** Carts *)

Lemma find_or_create_cart_spec uid s s1 cart :
  find_or_create_cart uid s = (s1, cart) ->
  st_carts s1 !! uid = Some cart /\
  st_products s1 = st_products s /\ st_orders s1 = st_orders s /\
  st_payments s1 = st_payments s /\ st_coupons s1 = st_coupons s /\
  st_nextId s1 = st_nextId s /\
  ((st_carts s !! uid = Some cart /\ st_carts s1 = st_carts s) \/
   (st_carts s !! uid = None /\ cart = mkCart uid [] 0%Q /\
    st_carts s1 = <[uid := cart]> (st_carts s))).
Proof.
  unfold find_or_create_cart. destruct (st_carts s !! uid) as [c|] eqn:Hc;
    intros H; injection H as <- <-.
  - split; [exact Hc|]. do 5 (split; [reflexivity|]). left. auto.
  - cbn [log_event set_carts st_carts st_products st_orders st_payments st_coupons st_nextId].
    rewrite lookup_insert_eq. split; [reflexivity|]. do 5 (split; [reflexivity|]).
    right. auto.
Qed.

Lemma save_cart_spec uid c s s1 r :
  save_cart uid c s = (s1, r) ->
  (r = Done /\ cart_valid c = true /\ st_carts s1 = <[uid := cart_save c]> (st_carts s) /\
   st_products s1 = st_products s /\ st_orders s1 = st_orders s /\
   st_payments s1 = st_payments s /\ st_coupons s1 = st_coupons s /\
   st_nextId s1 = st_nextId s) \/
  (r = Fail AEValidation /\ s1 = s).
Proof.
  unfold save_cart. destruct (cart_valid c) eqn:Hv; intros H; injection H as <- <-;
    [left|right; auto]. repeat split.
Qed.

Lemma cart_valid_Forall c :
  cart_valid c = true -> Forall (fun ci => 1 <= ci_quantity ci) (cart_items c).
Proof.
  unfold cart_valid. rewrite forallb_forall. intros H. apply List.Forall_forall.
  intros x Hx. apply Z.leb_le, H, Hx.
Qed.

Lemma hex_digit_char d : (d < 16)%nat -> hex_digit (hex_char d) = Some d.
Proof. intros H. do 16 (destruct d as [|d]; [reflexivity|]). lia. Qed.

Lemma hex_digits_step fuel k n acc : ~ (k = O /\ n = O) ->
  hex_digits (S fuel) k n acc =
  hex_digits fuel (Nat.pred k) (n / 16) (String (hex_char (n mod 16)) acc).
Proof. intros H. destruct k, n; [lia|reflexivity..]. Qed.

Lemma hex_digits_fuel fuel k n : (k + n <= S fuel)%nat -> ~ (k = O /\ n = O) ->
  (Nat.pred k + n / 16 <= fuel)%nat.
Proof.
  intros Hf Hkn.
  assert (Hd : (n / 16 < n \/ n = O)%nat).
  { destruct (decide (n = O)) as [->|Hn]; [right; reflexivity|left].
    apply Nat.div_lt; lia. }
  destruct k as [|k]; destruct Hd as [Hd|Hn0]; cbn [Nat.pred];
    [lia|subst n; exfalso; apply Hkn; auto|lia|subst n; rewrite Nat.Div0.div_0_l; lia].
Qed.

(** Reading the digits back gives the number. *)
Lemma hex_digits_value fuel : forall k n acc a, (k + n <= fuel)%nat ->
  exists m, hex_value a (hex_digits fuel k n acc) = hex_value (a * 16 ^ m + n)%nat acc.
Proof.
  induction fuel as [|fuel IH]; intros k n acc a Hf.
  - exists O. replace n with O by lia. simpl. f_equal. lia.
  - destruct (decide (k = O /\ n = O)) as [[-> ->]|Hkn].
    + exists O. simpl. f_equal. lia.
    + rewrite hex_digits_step by exact Hkn.
      destruct (IH (Nat.pred k) (n / 16)%nat (String (hex_char (n mod 16)%nat) acc) a
                  (hex_digits_fuel fuel k n Hf Hkn)) as [m Hm].
      exists (S m). rewrite Hm. cbn [hex_value].
      rewrite hex_digit_char by (apply Nat.mod_upper_bound; lia).
      f_equal. pose proof (Nat.div_mod_eq n 16%nat). simpl Nat.pow. nia.
Qed.

Lemma hex_digits_length fuel : forall k n acc, (k + n <= fuel)%nat ->
  (k + String.length acc <= String.length (hex_digits fuel k n acc))%nat.
Proof.
  induction fuel as [|fuel IH]; intros k n acc Hf.
  - replace k with O by lia. simpl. lia.
  - destruct (decide (k = O /\ n = O)) as [[-> ->]|Hkn]; [simpl; lia|].
    rewrite hex_digits_step by exact Hkn.
    pose proof (IH (Nat.pred k) (n / 16)%nat (String (hex_char (n mod 16)%nat) acc)
                  (hex_digits_fuel fuel k n Hf Hkn)) as H.
    cbn [String.length] in H. destruct k; cbn [Nat.pred] in H |- *; lia.
Qed.

(** [toString()] of an id casts back to that id. *)
Lemma cast_oid_str x y : cast_oid (oid_str x) = Some y -> y = x.
Proof.
  unfold cast_oid, oid_str.
  pose proof (hex_digits_length (24 + x) 24 x EmptyString ltac:(lia)) as Hl.
  simpl String.length at 1 in Hl.
  destruct (hex_digits_value (24 + x) 24 x EmptyString 0 ltac:(lia)) as [m Hm].
  destruct (Nat.eqb_spec (String.length (hex_digits (24 + x) 24 x EmptyString)) 12); [lia|].
  destruct (Nat.eqb _ 24); [|discriminate].
  rewrite Hm. simpl. intros H. injection H as <-. lia.
Qed.

Lemma canonical_cast productId pid :
  canonical_id productId = true -> cast_oid productId = Some pid ->
  oid_str pid = productId.
Proof. unfold canonical_id. intros H Hc. rewrite Hc in H. apply String.eqb_eq, H. Qed.

Lemma findIndex_Some_id productId l i x :
  findIndex productId l = Some (i, x) ->
  l !! i = Some x /\ oid_str (ci_productId x) = productId.
Proof. unfold findIndex. intros H. apply list_find_Some in H as (Hi & Hx & _). auto. Qed.

Lemma findIndex_insert productId l i x y :
  findIndex productId l = Some (i, x) -> oid_str (ci_productId y) = productId ->
  findIndex productId (<[i := y]> l) = Some (i, y).
Proof.
  unfold findIndex. intros H Hy. apply list_find_Some in H as (Hi & Hx & Hb).
  apply list_find_Some. split; [apply list_lookup_insert_eq; eapply lookup_lt_Some; eauto|].
  split; [exact Hy|]. intros j z Hj Hlt. rewrite list_lookup_insert_ne in Hj by lia. eauto.
Qed.

Lemma findIndex_app_new productId l y :
  findIndex productId l = None -> oid_str (ci_productId y) = productId ->
  findIndex productId (l ++ [y]) = Some (length l, y).
Proof.
  unfold findIndex. intros H Hy. rewrite list_find_app_r by exact H. simpl.
  rewrite decide_True by exact Hy. reflexivity.
Qed.

Lemma findIndex_None_notin pid l :
  findIndex (oid_str pid) l = None -> pid ∉ map ci_productId l.
Proof.
  unfold findIndex. intros H Hin. apply list_find_None in H.
  apply list_elem_of_In, in_map_iff in Hin as (x & Hx & Hin).
  rewrite List.Forall_forall in H. apply (H x Hin). rewrite Hx. reflexivity.
Qed.

Lemma NoDup_snoc {A} (l : list A) y : NoDup l -> y ∉ l -> NoDup (l ++ [y]).
Proof.
  intros Hn Hy. apply NoDup_app. split; [exact Hn|]. split; [|apply NoDup_singleton].
  intros x Hx Hin. apply list_elem_of_singleton in Hin. subst. exact (Hy Hx).
Qed.

Lemma carts_ok_shape s : carts_ok s -> carts_shape s.
Proof. intros K u c Hu. destruct (K u c Hu) as (? & _ & ? & ?). auto. Qed.

(** The carts after [find_or_create_cart], then possibly [save_cart] of the
    found cart with new items. *)
Lemma find_save_carts uid s s0 cart items s1 :
  find_or_create_cart uid s = (s0, cart) ->
  (s1 = fst (save_cart uid (set_items items cart) s0) \/ s1 = s0) ->
  st_products s1 = st_products s /\ st_orders s1 = st_orders s /\
  st_payments s1 = st_payments s /\ st_nextId s1 = st_nextId s /\
  (st_carts s !! uid = Some cart \/ cart = mkCart uid [] 0%Q) /\
  forall u c, st_carts s1 !! u = Some c ->
    st_carts s !! u = Some c \/ (u = uid /\ c = mkCart uid [] 0%Q) \/
    (u = uid /\ c = cart_save (set_items items cart) /\
     Forall (fun ci => 1 <= ci_quantity ci) items).
Proof.
  intros Hf Hs1.
  apply find_or_create_cart_spec in Hf as (Hc0 & Hp0 & Ho0 & Hpay0 & _ & Hn0 & Hcase).
  assert (H0 : forall u c, st_carts s0 !! u = Some c ->
     st_carts s !! u = Some c \/ (u = uid /\ c = mkCart uid [] 0%Q)).
  { intros u c Hu. destruct Hcase as [(_ & Hc)|(_ & -> & Hc)]; [left; congruence|].
    rewrite Hc in Hu. apply lookup_insert_Some in Hu as [(<- & <-)|(_ & Hu)];
      [right; auto|left; exact Hu]. }
  assert (Hcase' : st_carts s !! uid = Some cart \/ cart = mkCart uid [] 0%Q)
    by (destruct Hcase as [(? & _)|(_ & ? & _)]; auto).
  destruct Hs1 as [ -> | -> ].
  - destruct (save_cart uid (set_items items cart) s0) as [s2 r] eqn:Hsv. simpl.
    apply save_cart_spec in Hsv as [(_ & Hv & Hc2 & Hp2 & Ho2 & Hpay2 & _ & Hn2)|(_ & ->)].
    + split; [congruence|]. split; [congruence|]. split; [congruence|].
      split; [congruence|]. split; [exact Hcase'|].
      intros u c Hu. rewrite Hc2 in Hu.
      apply lookup_insert_Some in Hu as [(<- & <-)|(_ & Hu)].
      * right; right. split; [reflexivity|]. split; [reflexivity|].
        apply cart_valid_Forall in Hv. exact Hv.
      * destruct (H0 u c Hu) as [?|?]; [left|right; left]; assumption.
    + do 4 (split; [assumption|]). split; [exact Hcase'|].
      intros u c Hu. destruct (H0 u c Hu); [left|right; left]; assumption.
  - do 4 (split; [assumption|]). split; [exact Hcase'|].
    intros u c Hu. destruct (H0 u c Hu); [left|right; left]; assumption.
Qed.

Lemma find_save_keeps uid s s0 cart items s1 :
  find_or_create_cart uid s = (s0, cart) ->
  (s1 = fst (save_cart uid (set_items items cart) s0) \/ s1 = s0) ->
  (wf_store s -> wf_store s1) /\ (payments_ok s -> payments_ok s1) /\
  (carts_shape s -> carts_shape s1) /\
  (carts_ok s ->
   (NoDup (map ci_productId (cart_items cart)) -> NoDup (map ci_productId items)) ->
   carts_ok s1).
Proof.
  intros Hf Hs1.
  destruct (find_save_carts uid s s0 cart items s1 Hf Hs1)
    as (Hp & Ho & Hpay & Hn & Hcase & Hc).
  split; [|split; [|split]].
  - intros (W1 & W2 & W3). split; [|split].
    + rewrite Hp. exact W1.
    + intros u c Hu. destruct (Hc u c Hu) as [H|[(_ & ->)|(_ & -> & H)]];
        [exact (W2 u c H)|constructor|exact H].
    + rewrite Ho, Hpay, Hn. exact W3.
  - intros P k p Hk. rewrite Hn. rewrite Hpay in Hk. exact (P k p Hk).
  - intros K u c Hu. destruct (Hc u c Hu) as [H|[(-> & ->)|(-> & -> & H)]];
      [exact (K u c H)| |].
    + split; [reflexivity|]. split; [constructor|reflexivity].
    + cbn [cart_save set_items cart_items cart_userId cart_totalPrice].
      split; [|split; [exact H|reflexivity]].
      destruct Hcase as [Hc0| ->]; [exact (proj1 (K uid cart Hc0))|reflexivity].
  - intros K Hnd u c Hu. destruct (Hc u c Hu) as [H|[(-> & ->)|(-> & -> & H)]];
      [exact (K u c H)| |].
    + split; [reflexivity|]. split; [constructor|]. split; [constructor|reflexivity].
    + cbn [cart_save set_items cart_items cart_userId cart_totalPrice].
      destruct Hcase as [Hc0| ->].
      * destruct (K uid cart Hc0) as (Hu' & Hnd0 & _).
        split; [exact Hu'|]. split; [exact (Hnd Hnd0)|]. split; [exact H|reflexivity].
      * split; [reflexivity|]. split; [apply Hnd; constructor|].
        split; [exact H|reflexivity].
Qed.

Lemma map_insert_same {A B} (g : A -> B) (l : list A) i x y :
  l !! i = Some x -> g y = g x -> map g (<[i := y]> l) = map g l.
Proof.
  revert i. induction l as [|a l IH]; intros [|i] Hi Hg; try discriminate.
  - injection Hi as ->. simpl. rewrite Hg. reflexivity.
  - simpl in Hi. simpl. rewrite (IH i Hi Hg). reflexivity.
Qed.

Lemma filter_insert_dropped {A} (f : A -> bool) (l : list A) i x y :
  l !! i = Some x -> f x = false -> f y = false ->
  List.filter f (<[i := y]> l) = List.filter f l.
Proof.
  revert i. induction l as [|a l IH]; intros [|i] Hi Hx Hy; try discriminate.
  - injection Hi as ->. simpl. rewrite Hx, Hy. reflexivity.
  - simpl in Hi. simpl. rewrite (IH i Hi Hx Hy). reflexivity.
Qed.

(** X15.  For a [productId] in the form [toString()] gives, a successful
    [addToCart] leaves a line on the product whose quantity is the old
    quantity plus the requested one (1 by default), at least 1 and at most
    the stock, at the product's effective price; the lines whose id string
    differs from [productId] are unchanged and the total is recomputed. *)
Lemma addToCart_success uid productId quantity s s1 :
  canonical_id productId = true ->
  addToCart uid productId quantity s = (s1, Done) ->
  let q := match quantity with Some q => q | None => 1 end in
  let olditems := match st_carts s !! uid with Some c => cart_items c | None => [] end in
  let old := match findIndex productId olditems with
             | Some (_, item) => ci_quantity item | None => 0 end in
  exists pid product cart1,
    cast_oid productId = Some pid /\
    st_products s !! pid = Some product /\ p_isActive product = true /\
    st_carts s1 !! uid = Some cart1 /\
    (exists i item, findIndex productId (cart_items cart1) = Some (i, item) /\
       ci_productId item = pid /\
       ci_quantity item = old + q /\ 1 <= ci_quantity item <= p_stock product /\
       ci_price item = effective_price product) /\
    List.filter (fun it => negb (String.eqb (oid_str (ci_productId it)) productId))
      (cart_items cart1) =
    List.filter (fun it => negb (String.eqb (oid_str (ci_productId it)) productId))
      olditems /\
    cart_totalPrice cart1 = cart_total (cart_items cart1).
Proof.
  intros Hcan H q olditems old. unfold addToCart in H. fold q in H.
  destruct (cast_oid productId) as [pid|] eqn:Hcast; [|discriminate].
  pose proof (canonical_cast _ _ Hcan Hcast) as Hstr.
  destruct (st_products s !! pid) as [product|] eqn:Hp; [|discriminate].
  destruct (p_isActive product) eqn:Ha; simpl in H; [|discriminate].
  destruct (p_stock product <? q) eqn:Hs; [discriminate|].
  destruct (find_or_create_cart uid s) as [s0 cart] eqn:Hf.
  apply find_or_create_cart_spec in Hf as (Hc0 & _ & _ & _ & _ & _ & Hcase).
  assert (Hold : olditems = cart_items cart)
    by (unfold olditems; destruct Hcase as [[-> _]|(-> & -> & _)]; reflexivity).
  unfold old. rewrite Hold. clear old olditems Hold Hcase.
  exists pid, product. destruct (findIndex productId (cart_items cart)) as [[i item]|] eqn:Hfi.
  - destruct (p_stock product <? ci_quantity item + q) eqn:Hs2; [discriminate|].
    apply save_cart_spec in H as [(_ & Hv & Hc1 & _)|(? & _)]; [|discriminate].
    eexists. split; [reflexivity|].
    split; [first [exact Hp|reflexivity]|]. split; [first [exact Ha|reflexivity]|].
    split; [rewrite Hc1; apply lookup_insert_eq|].
    pose proof Hfi as Hfi'. apply findIndex_Some_id in Hfi' as (Hi & Hpid).
    cbn [cart_save set_items cart_items cart_totalPrice]. split; [|split; [|reflexivity]].
    + exists i, (set_line (ci_quantity item + q) (effective_price product) item).
      split; [apply (findIndex_insert _ _ _ item); [exact Hfi|exact Hpid]|].
      split; [cbn [set_line ci_productId]; symmetry; apply cast_oid_str;
              rewrite Hpid; exact Hcast|].
      split; [reflexivity|]. split; [|reflexivity]. split.
      * apply cart_valid_Forall in Hv. cbn [set_items cart_items] in Hv.
        eapply (Forall_lookup_1 _ _ i) in Hv; [exact Hv|].
        apply list_lookup_insert_eq. eapply lookup_lt_Some; eauto.
      * apply Z.ltb_ge in Hs2. cbn [set_line ci_quantity]. lia.
    + apply (filter_insert_dropped _ _ i item); [exact Hi| |];
        cbn [set_line ci_productId]; rewrite Hpid, String.eqb_refl; reflexivity.
  - apply save_cart_spec in H as [(_ & Hv & Hc1 & _)|(? & _)]; [|discriminate].
    eexists. split; [reflexivity|].
    split; [first [exact Hp|reflexivity]|]. split; [first [exact Ha|reflexivity]|].
    split; [rewrite Hc1; apply lookup_insert_eq|].
    cbn [cart_save set_items cart_items cart_totalPrice]. split; [|split; [|reflexivity]].
    + exists (length (cart_items cart)), (mkCartItem pid q (effective_price product)).
      split; [apply findIndex_app_new; [exact Hfi|exact Hstr]|].
      split; [reflexivity|]. split; [simpl; lia|]. split; [|reflexivity]. split.
      * apply cart_valid_Forall in Hv. cbn [set_items cart_items] in Hv.
        apply Forall_app in Hv as (_ & Hv). inversion Hv; assumption.
      * apply Z.ltb_ge in Hs. cbn [ci_quantity]. lia.
    + rewrite List.filter_app. simpl. rewrite Hstr, String.eqb_refl. simpl.
      apply app_nil_r.
Qed.

(** X16.  A failing [addToCart] changes no product, order, payment or coupon,
    and no cart except that it may have created the caller's empty cart; a
    missing or inactive product changes nothing at all. *)
Lemma addToCart_failure uid productId quantity s s1 e :
  addToCart uid productId quantity s = (s1, Fail e) ->
  (e = AEProductNotFound -> s1 = s) /\
  st_products s1 = st_products s /\ st_orders s1 = st_orders s /\
  st_payments s1 = st_payments s /\ st_coupons s1 = st_coupons s /\
  (st_carts s1 = st_carts s \/
   (st_carts s !! uid = None /\ st_carts s1 = <[uid := mkCart uid [] 0%Q]> (st_carts s))).
Proof.
  unfold addToCart.
  destruct (cast_oid productId) as [pid|];
    [|intros H; injection H as <- _; repeat split; auto].
  destruct (st_products s !! pid) as [product|] eqn:Hp;
    [|intros H; injection H as <- _; repeat split; auto].
  destruct (negb (p_isActive product)); [intros H; injection H as <- _; repeat split; auto|].
  destruct (p_stock product <? _); [intros H; injection H as <- _; repeat split; auto|].
  destruct (find_or_create_cart uid s) as [s0 cart] eqn:Hf.
  apply find_or_create_cart_spec in Hf as (_ & Hp0 & Ho0 & Hpay0 & Hk0 & _ & Hcase).
  assert (Hend : forall e', e' <> AEProductNotFound -> s1 = s0 -> e = e' ->
    (e = AEProductNotFound -> s1 = s) /\
    st_products s1 = st_products s /\ st_orders s1 = st_orders s /\
    st_payments s1 = st_payments s /\ st_coupons s1 = st_coupons s /\
    (st_carts s1 = st_carts s \/
     (st_carts s !! uid = None /\ st_carts s1 = <[uid := mkCart uid [] 0%Q]> (st_carts s)))).
  { intros e' Hne -> ->. split; [intros ->; congruence|].
    do 4 (split; [assumption|]).
    destruct Hcase as [(_ & Hc)|(Hn & -> & Hc)]; [left; exact Hc|right; auto]. }
  destruct (findIndex productId (cart_items cart)) as [[i item]|].
  - destruct (p_stock product <? _).
    + intros H; injection H as <- <-. eapply Hend; [|reflexivity|reflexivity]; discriminate.
    + intros H. apply save_cart_spec in H as [(? & _)|(He & ->)]; [discriminate|].
      injection He; intros; subst e. eapply Hend; [|reflexivity|reflexivity]; discriminate.
  - intros H. apply save_cart_spec in H as [(? & _)|(He & ->)]; [discriminate|].
    injection He; intros; subst e. eapply Hend; [|reflexivity|reflexivity]; discriminate.
Qed.

(** X20.  [findIndex] compares strings, while [findById] also accepts other
    spellings of an id (uppercase hexadecimal digits, or the 12-character
    form).  When the cart has a line on the product but no line whose id
    string is [productId], a successful [addToCart] appends a second line
    on the same product. *)
Lemma addToCart_duplicate_line uid productId quantity s s1 pid cart :
  cast_oid productId = Some pid ->
  st_carts s !! uid = Some cart -> In pid (map ci_productId (cart_items cart)) ->
  Forall (fun it => oid_str (ci_productId it) <> productId) (cart_items cart) ->
  addToCart uid productId quantity s = (s1, Done) ->
  exists cart1 price,
    st_carts s1 !! uid = Some cart1 /\
    cart_items cart1 = cart_items cart ++
      [mkCartItem pid (match quantity with Some q => q | None => 1 end) price] /\
    ~ NoDup (map ci_productId (cart_items cart1)).
Proof.
  intros Hcast Hc Hin Hall. unfold addToCart. rewrite Hcast.
  destruct (st_products s !! pid) as [product|]; [|discriminate].
  destruct (negb (p_isActive product)); [discriminate|].
  destruct (p_stock product <? _); [discriminate|].
  unfold find_or_create_cart. rewrite Hc. cbv beta iota.
  assert (Hfi : findIndex productId (cart_items cart) = None)
    by (unfold findIndex; apply list_find_None; exact Hall).
  rewrite Hfi. intros H.
  apply save_cart_spec in H as [(_ & _ & Hc1 & _)|(? & _)]; [|discriminate].
  eexists _, _. split; [rewrite Hc1; apply lookup_insert_eq|].
  split; [reflexivity|].
  cbn [cart_save set_items cart_items]. rewrite map_app. simpl.
  intros Hnd. apply NoDup_app in Hnd as (_ & Hd & _).
  apply (Hd pid); [apply list_elem_of_In; exact Hin|apply list_elem_of_singleton; reflexivity].
Qed.

Lemma merge_item_NoDup prods items g items' :
  canonical_id (g_productId g) = true ->
  NoDup (map ci_productId items) -> merge_item prods items g = Some items' ->
  NoDup (map ci_productId items').
Proof.
  intros Hcan Hn. unfold merge_item.
  destruct (cast_oid (g_productId g)) as [pid|] eqn:Hcast; [|discriminate].
  destruct (prods !! pid) as [product|]; [|intros H; injection H as <-; exact Hn].
  destruct (negb (p_isActive product)); [intros H; injection H as <-; exact Hn|].
  destruct (findIndex (g_productId g) items) as [[i item]|] eqn:Hfi.
  - destruct (_ <=? p_stock product); intros H; injection H as <-; [|exact Hn].
    apply findIndex_Some_id in Hfi as (Hi & _).
    rewrite (map_insert_same _ _ i item); [exact Hn|exact Hi|reflexivity].
  - destruct (_ <=? p_stock product); intros H; injection H as <-; [|exact Hn].
    rewrite map_app. cbn [map ci_productId].
    apply NoDup_snoc; [exact Hn|]. apply findIndex_None_notin.
    rewrite (canonical_cast _ _ Hcan Hcast). exact Hfi.
Qed.

Lemma merge_items_NoDup prods guests items items' :
  Forall (fun g => canonical_id (g_productId g) = true) guests ->
  NoDup (map ci_productId items) -> merge_items prods guests items = Some items' ->
  NoDup (map ci_productId items').
Proof.
  revert items. induction guests as [|g guests IH]; intros items Hc Hn H; simpl in H.
  - injection H as <-. exact Hn.
  - inversion Hc as [|? ? Hg Hgs]; subst.
    destruct (merge_item prods items g) as [items1|] eqn:Hm; [|discriminate].
    exact (IH items1 Hgs (merge_item_NoDup _ _ _ _ Hg Hn Hm) H).
Qed.

Lemma reprice_productId prods it : ci_productId (reprice prods it) = ci_productId it.
Proof. unfold reprice. destruct (prods !! ci_productId it); reflexivity. Qed.

Lemma map_reprice_productIds prods items :
  map ci_productId (map (reprice prods) items) = map ci_productId items.
Proof.
  induction items as [|it items IH]; simpl; [reflexivity|].
  rewrite reprice_productId, IH. reflexivity.
Qed.

(** What each cart handler does to the store: nothing, or
    [find_or_create_cart], then possibly [save_cart] of new items, which
    keep one line per product when the ids are in canonical form. *)
Lemma addToCart_cases uid productId quantity s :
  fst (addToCart uid productId quantity s) = s \/
  exists s0 cart items, find_or_create_cart uid s = (s0, cart) /\
    (fst (addToCart uid productId quantity s) = fst (save_cart uid (set_items items cart) s0) \/
     fst (addToCart uid productId quantity s) = s0) /\
    (canonical_id productId = true ->
     NoDup (map ci_productId (cart_items cart)) -> NoDup (map ci_productId items)).
Proof.
  unfold addToCart.
  destruct (cast_oid productId) as [pid|] eqn:Hcast; [|left; reflexivity].
  destruct (st_products s !! pid) as [product|]; [|left; reflexivity].
  destruct (negb (p_isActive product)); [left; reflexivity|].
  destruct (_ <? _); [left; reflexivity|].
  destruct (find_or_create_cart uid s) as [s0 cart] eqn:Hf. right.
  destruct (findIndex productId (cart_items cart)) as [[i item]|] eqn:Hfi.
  - destruct (_ <? _).
    + exists s0, cart, (cart_items cart). split; [reflexivity|].
      split; [right; reflexivity|]. auto.
    + eexists s0, cart, _. split; [reflexivity|]. split; [left; reflexivity|].
      intros _ Hn. apply findIndex_Some_id in Hfi as (Hi & _).
      rewrite (map_insert_same _ _ i item); [exact Hn|exact Hi|reflexivity].
  - eexists s0, cart, _. split; [reflexivity|]. split; [left; reflexivity|].
    intros Hcan Hn. rewrite map_app. cbn [map ci_productId].
    apply NoDup_snoc; [exact Hn|].
    apply findIndex_None_notin. rewrite (canonical_cast _ _ Hcan Hcast). exact Hfi.
Qed.

Lemma mergeCart_cases uid guestCartItems s :
  exists s0 cart items, find_or_create_cart uid s = (s0, cart) /\
    (fst (mergeCart uid guestCartItems s) = fst (save_cart uid (set_items items cart) s0) \/
     fst (mergeCart uid guestCartItems s) = s0) /\
    (forall guests, guestCartItems = Some guests ->
     Forall (fun g => canonical_id (g_productId g) = true) guests ->
     NoDup (map ci_productId (cart_items cart)) -> NoDup (map ci_productId items)).
Proof.
  unfold mergeCart. destruct (find_or_create_cart uid s) as [s0 cart] eqn:Hf.
  destruct guestCartItems as [guests|].
  - destruct (merge_items (st_products s0) guests (cart_items cart)) as [items|] eqn:Hm.
    + exists s0, cart, items. split; [reflexivity|]. split; [left; reflexivity|].
      intros g' Hg' Hc Hn. injection Hg' as <-. exact (merge_items_NoDup _ _ _ _ Hc Hn Hm).
    + exists s0, cart, (cart_items cart). split; [reflexivity|].
      split; [right; reflexivity|]. auto.
  - exists s0, cart, (cart_items cart). split; [reflexivity|].
    split; [right; reflexivity|]. auto.
Qed.

Lemma getCart_cases uid s :
  exists s0 cart items, find_or_create_cart uid s = (s0, cart) /\
    fst (getCart uid s) = fst (save_cart uid (set_items items cart) s0) /\
    (NoDup (map ci_productId (cart_items cart)) -> NoDup (map ci_productId items)).
Proof.
  unfold getCart. destruct (find_or_create_cart uid s) as [s0 cart] eqn:Hf.
  eexists s0, cart, _. split; [reflexivity|]. split; [reflexivity|].
  intros Hn. rewrite map_reprice_productIds. exact Hn.
Qed.

(** X19.  [addToCart], [mergeCart] and [getCart] keep [wf_store],
    [carts_shape] and [payments_ok] whatever the request: every stored cart
    sits under its own [userId], with quantities at least 1 and the
    [totalPrice] of its items. *)
Lemma cart_handlers_keep_invariants uid s :
  wf_store s -> carts_shape s -> payments_ok s ->
  (forall productId quantity,
     wf_store (fst (addToCart uid productId quantity s)) /\
     carts_shape (fst (addToCart uid productId quantity s)) /\
     payments_ok (fst (addToCart uid productId quantity s))) /\
  (forall guestCartItems,
     wf_store (fst (mergeCart uid guestCartItems s)) /\
     carts_shape (fst (mergeCart uid guestCartItems s)) /\
     payments_ok (fst (mergeCart uid guestCartItems s))) /\
  (wf_store (fst (getCart uid s)) /\ carts_shape (fst (getCart uid s)) /\
   payments_ok (fst (getCart uid s))).
Proof.
  intros W K P.
  assert (Fin : forall s1 s0 cart items, find_or_create_cart uid s = (s0, cart) ->
     (s1 = fst (save_cart uid (set_items items cart) s0) \/ s1 = s0) ->
     wf_store s1 /\ carts_shape s1 /\ payments_ok s1).
  { intros s1 s0 cart items Hf Hs1.
    destruct (find_save_keeps uid s s0 cart items s1 Hf Hs1) as (A & B & C & _).
    split; [exact (A W)|]. split; [exact (C K)|exact (B P)]. }
  split; [|split].
  - intros productId quantity.
    destruct (addToCart_cases uid productId quantity s)
      as [->|(s0 & cart & items & Hf & Hs1 & _)];
      [split; [exact W|split; [exact K|exact P]]|exact (Fin _ _ _ _ Hf Hs1)].
  - intros guestCartItems.
    destruct (mergeCart_cases uid guestCartItems s) as (s0 & cart & items & Hf & Hs1 & _).
    exact (Fin _ _ _ _ Hf Hs1).
  - destruct (getCart_cases uid s) as (s0 & cart & items & Hf & Hs1 & _).
    exact (Fin _ _ _ _ Hf (or_introl Hs1)).
Qed.

(** X21.  When every product id of the request is in the form
    [toString()] gives, [addToCart] and [mergeCart] keep [carts_ok]: a cart
    never gets two lines on the same product, even when the guest cart
    repeats one.  [getCart] keeps [carts_ok] whatever the request. *)
Lemma canonical_ids_keep_carts_ok uid s :
  carts_ok s ->
  (forall productId quantity, canonical_id productId = true ->
     carts_ok (fst (addToCart uid productId quantity s))) /\
  (forall guests, Forall (fun g => canonical_id (g_productId g) = true) guests ->
     carts_ok (fst (mergeCart uid (Some guests) s))) /\
  carts_ok (fst (getCart uid s)).
Proof.
  intros K.
  assert (Fin : forall s1 s0 cart items, find_or_create_cart uid s = (s0, cart) ->
     (s1 = fst (save_cart uid (set_items items cart) s0) \/ s1 = s0) ->
     (NoDup (map ci_productId (cart_items cart)) -> NoDup (map ci_productId items)) ->
     carts_ok s1).
  { intros s1 s0 cart items Hf Hs1 Hnd.
    destruct (find_save_keeps uid s s0 cart items s1 Hf Hs1) as (_ & _ & _ & D).
    exact (D K Hnd). }
  split; [|split].
  - intros productId quantity Hcan.
    destruct (addToCart_cases uid productId quantity s)
      as [->|(s0 & cart & items & Hf & Hs1 & Hnd)];
      [exact K|exact (Fin _ _ _ _ Hf Hs1 (Hnd Hcan))].
  - intros guests Hc.
    destruct (mergeCart_cases uid (Some guests) s) as (s0 & cart & items & Hf & Hs1 & Hnd).
    exact (Fin _ _ _ _ Hf Hs1 (Hnd guests eq_refl Hc)).
  - destruct (getCart_cases uid s) as (s0 & cart & items & Hf & Hs1 & Hnd).
    exact (Fin _ _ _ _ Hf (or_introl Hs1) Hnd).
Qed.

Lemma In_list_insert {A} (l : list A) i y it :
  In it (<[i := y]> l) -> In it l \/ it = y.
Proof.
  revert i. induction l as [|a l IH]; intros [|i] H; simpl in H; try contradiction.
  - destruct H as [<-|H]; [right; reflexivity|left; right; exact H].
  - destruct H as [<-|H]; [left; left; reflexivity|].
    destruct (IH i H) as [H'|H']; [left; right; exact H'|right; exact H'].
Qed.

Lemma merge_item_lines prods items g items' it :
  merge_item prods items g = Some items' -> In it items' ->
  In it items \/
  exists product, prods !! ci_productId it = Some product /\ p_isActive product = true /\
    ci_quantity it <= p_stock product /\ ci_price it = effective_price product.
Proof.
  unfold merge_item.
  destruct (cast_oid (g_productId g)) as [pid|] eqn:Hcast; [|discriminate].
  destruct (prods !! pid) as [product|] eqn:Hp; [|intros H; injection H as <-; auto].
  destruct (p_isActive product) eqn:Ha; simpl; [|intros H; injection H as <-; auto].
  destruct (findIndex (g_productId g) items) as [[i item]|] eqn:Hfi.
  - destruct (ci_quantity item + g_quantity g <=? p_stock product) eqn:Hs;
      intros H; injection H as <-; [|auto].
    intros H. apply In_list_insert in H as [H| ->]; [left; exact H|right].
    apply findIndex_Some_id in Hfi as (_ & Hpid).
    assert (Hx : pid = ci_productId item)
      by (apply cast_oid_str; rewrite Hpid; exact Hcast).
    exists product. cbn [set_line ci_productId ci_quantity ci_price]. rewrite <- Hx.
    apply Z.leb_le in Hs. auto.
  - destruct (g_quantity g <=? p_stock product) eqn:Hs; intros H; injection H as <-; [|auto].
    intros H. apply in_app_iff in H as [H|[<-|[]]]; [left; exact H|right].
    exists product. cbn [ci_productId ci_quantity ci_price]. apply Z.leb_le in Hs. auto.
Qed.

Lemma merge_items_lines prods guests items items' it :
  merge_items prods guests items = Some items' -> In it items' ->
  In it items \/
  exists product, prods !! ci_productId it = Some product /\ p_isActive product = true /\
    ci_quantity it <= p_stock product /\ ci_price it = effective_price product.
Proof.
  revert items. induction guests as [|g guests IH]; intros items H Hin; simpl in H.
  - injection H as <-. left. exact Hin.
  - destruct (merge_item prods items g) as [items1|] eqn:Hm; [|discriminate].
    destruct (IH items1 H Hin) as [H'|H']; [|right; exact H'].
    exact (merge_item_lines _ _ _ _ _ Hm H').
Qed.

(** X17.  After a successful [mergeCart], every line of the cart has
    quantity at least 1 and is either a line the cart already had or a line
    on an active product with quantity at most its stock at the product's
    effective price; the total is recomputed. *)
Lemma mergeCart_lines uid guests s s1 :
  mergeCart uid (Some guests) s = (s1, Done) ->
  exists cart1, st_carts s1 !! uid = Some cart1 /\
    cart_totalPrice cart1 = cart_total (cart_items cart1) /\
    forall it, In it (cart_items cart1) -> 1 <= ci_quantity it /\
      (In it (match st_carts s !! uid with Some c => cart_items c | None => [] end) \/
       exists product, st_products s !! ci_productId it = Some product /\
         p_isActive product = true /\ ci_quantity it <= p_stock product /\
         ci_price it = effective_price product).
Proof.
  unfold mergeCart. destruct (find_or_create_cart uid s) as [s0 cart] eqn:Hf.
  apply find_or_create_cart_spec in Hf as (_ & Hp0 & _ & _ & _ & _ & Hcase).
  destruct (merge_items (st_products s0) guests (cart_items cart)) as [items|] eqn:Hm;
    [|discriminate].
  intros H. apply save_cart_spec in H as [(_ & Hv & Hc1 & _)|(? & _)]; [|discriminate].
  eexists. split; [rewrite Hc1; apply lookup_insert_eq|].
  cbn [cart_save set_items cart_items cart_totalPrice]. split; [reflexivity|].
  intros it Hin. split.
  - apply cart_valid_Forall in Hv. cbn [set_items cart_items] in Hv.
    rewrite List.Forall_forall in Hv. exact (Hv it Hin).
  - rewrite <- Hp0. apply (merge_items_lines _ _ _ _ _ Hm) in Hin as [Hin|Hin];
      [left|right; exact Hin].
    destruct Hcase as [(-> & _)|(-> & -> & _)]; [exact Hin|contradiction].
Qed.

(** ** getCart, then checkout *)

Lemma check_items_total prods items acc ois ois' tot :
  check_items prods items acc ois = ROk (ois', tot) ->
  (forall it p, In it items -> prods !! ci_productId it = Some p ->
     ci_price it = effective_price p) ->
  tot = fold_left (fun t it => t + ci_price it * inject_Z (ci_quantity it))%Q items acc.
Proof.
  revert acc ois. induction items as [|it items IH]; intros acc ois H Hpr; simpl in H.
  - injection H as _ <-. reflexivity.
  - destruct (prods !! ci_productId it) as [p|] eqn:Hp; [|discriminate].
    destruct (negb (p_isActive p)); [discriminate|].
    destruct (p_stock p <? ci_quantity it); [discriminate|].
    simpl. rewrite (Hpr it p (or_introl eq_refl) Hp).
    apply (IH _ _ H). intros it' p' Hin. apply Hpr. right. exact Hin.
Qed.

Lemma reprice_price prods items it p :
  In it (map (reprice prods) items) -> prods !! ci_productId it = Some p ->
  ci_price it = effective_price p.
Proof.
  intros Hin Hp. apply in_map_iff in Hin as (x & <- & _).
  rewrite reprice_productId in Hp. unfold reprice. rewrite Hp. reflexivity.
Qed.

(** X18.  Right after a successful [getCart], a checkout of that cart that
    passes its checks charges, before the discount, exactly the
    [totalPrice] getCart stored for the cart. *)
Lemma getCart_then_checkout uid s s1 inp plan :
  getCart uid s = (s1, Done) -> in_userId inp = uid ->
  checkout_validate inp s1 = ROk plan ->
  (pl_total plan + pl_discount plan == cart_totalPrice (pl_cart plan))%Q.
Proof.
  unfold getCart. destruct (find_or_create_cart uid s) as [s0 cart] eqn:Hf.
  intros H Hu. apply save_cart_spec in H as [(_ & _ & Hc1 & Hp1 & _)|(? & _)];
    [|discriminate].
  unfold checkout_validate. rewrite Hu, Hc1, lookup_insert_eq.
  cbn [cart_save set_items cart_items cart_totalPrice].
  assert (Hpr : forall it p, In it (map (reprice (st_products s0)) (cart_items cart)) ->
     st_products s1 !! ci_productId it = Some p -> ci_price it = effective_price p)
    by (intros it p Hin; rewrite Hp1; apply (reprice_price _ _ _ _ Hin)).
  revert Hpr. destruct (map (reprice (st_products s0)) (cart_items cart)) as [|x xs];
    intros Hpr; [discriminate|].
  destruct (check_items (st_products s1) (x :: xs) 0%Q []) as [[ois tot]|e] eqn:Hch;
    [|discriminate].
  destruct (apply_coupon _ _ _ _) as [[d c]|e]; [|discriminate].
  intros Hplan. injection Hplan as <-. cbn [pl_total pl_discount pl_cart cart_totalPrice].
  rewrite (check_items_total _ _ _ _ _ _ Hch Hpr). unfold cart_save, set_items. cbn [cart_totalPrice cart_items]. ring.
Qed.

(** ** updateOrderStatus and processCOD keep the invariants *)

Lemma updateOrderStatus_effects env oid os s :
  st_products (fst (updateOrderStatus env oid os s)) = st_products s /\
  st_carts (fst (updateOrderStatus env oid os s)) = st_carts s /\
  st_payments (fst (updateOrderStatus env oid os s)) = st_payments s /\
  st_nextId (fst (updateOrderStatus env oid os s)) = st_nextId s /\
  (st_orders (fst (updateOrderStatus env oid os s)) = st_orders s \/
   exists order order', st_orders s !! oid = Some order /\
     st_orders (fst (updateOrderStatus env oid os s)) = <[oid := order']> (st_orders s)).
Proof.
  unfold updateOrderStatus. destruct (st_orders s !! oid) as [order|] eqn:Ho;
    [|repeat split; left; reflexivity].
  destruct (match os with Some str => _ | None => _ end) as [order'|];
    [|repeat split; left; reflexivity].
  destruct (env_notify_fails env); simpl; (do 4 (split; [reflexivity|]));
    right; exists order, order'; auto.
Qed.

(** X14.  [updateOrderStatus] and [processCOD] keep [wf_store], [carts_ok]
    and [payments_ok]. *)
Lemma order_admin_handlers_keep_invariants env oid uid os s :
  wf_store s -> carts_ok s -> payments_ok s ->
  (wf_store (fst (updateOrderStatus env oid os s)) /\
   carts_ok (fst (updateOrderStatus env oid os s)) /\
   payments_ok (fst (updateOrderStatus env oid os s))) /\
  (wf_store (fst (processCOD oid uid s)) /\ carts_ok (fst (processCOD oid uid s)) /\
   payments_ok (fst (processCOD oid uid s))).
Proof.
  intros (W1 & W2 & W3) K P. split.
  - destruct (updateOrderStatus_effects env oid os s) as (Hp & Hc & Hpay & Hn & Ho).
    set (s1 := fst (updateOrderStatus env oid os s)) in *. clearbody s1.
    split; [split; [|split]|split].
    + rewrite Hp. exact W1.
    + rewrite Hc. exact W2.
    + intros k Hk. rewrite Hn in Hk. rewrite Hpay. split; [|exact (proj2 (W3 k Hk))].
      destruct Ho as [->|(order & order' & Hoid & ->)]; [exact (proj1 (W3 k Hk))|].
      rewrite lookup_insert_ne; [exact (proj1 (W3 k Hk))|].
      intros <-. rewrite (proj1 (W3 oid Hk)) in Hoid. discriminate.
    + intros u c Hu. rewrite Hc in Hu. exact (K u c Hu).
    + intros k p Hk. rewrite Hn. rewrite Hpay in Hk. exact (P k p Hk).
  - destruct (processCOD_store_effects oid uid s) as (Ho & Hp & Hc & _ & Hn & Hpay).
    set (s1 := fst (processCOD oid uid s)) in *. clearbody s1.
    split; [split; [|split]|split].
    + rewrite Hp. exact W1.
    + rewrite Hc. exact W2.
    + intros k Hk. rewrite Hn in Hk. rewrite Ho. split; [exact (proj1 (W3 k Hk))|].
      destruct Hpay as [->|(pid & _ & ->)]; [exact (proj2 (W3 k Hk))|].
      destruct (decide (pid = k)) as [<-|Hne].
      * rewrite lookup_alter_eq, (proj2 (W3 pid Hk)). reflexivity.
      * rewrite lookup_alter_ne by exact Hne. exact (proj2 (W3 k Hk)).
    + intros u c Hu. rewrite Hc in Hu. exact (K u c Hu).
    + intros k p Hk. rewrite Hn.
      destruct Hpay as [Hpay|(pid & _ & Hpay)]; rewrite Hpay in Hk; [exact (P k p Hk)|].
      destruct (orderId_lookup _ _ k p (alter_pay_status_orderId PayPending pid _ k) Hk)
        as (p0 & Hp0 & Heq). rewrite <- Heq. exact (P k p0 Hp0).
Qed.

(** ** Witnesses *)

Lemma ex_store_carts_ok : carts_ok ex_store.
Proof.
  intros uid c H. cbn [ex_store st_carts] in H.
  apply lookup_singleton_Some in H as [<- <-]. vm_compute.
  split; [reflexivity|]. split; [apply NoDup_singleton|].
  split; [repeat constructor; discriminate|reflexivity].
Qed.

Lemma ex_store_payments_ok : payments_ok ex_store.
Proof. intros k p H. cbn [ex_store st_payments] in H. rewrite lookup_empty in H. discriminate. Qed.

Lemma ex_store_paid_invariants :
  wf_store ex_store_paid /\ carts_ok ex_store_paid /\ payments_ok ex_store_paid.
Proof.
  split; [split; [|split]|split].
  - intros id p H. cbn [ex_store_paid st_products] in H.
    apply lookup_singleton_Some in H as [_ <-]. split; [discriminate|].
    intros d Hd. discriminate.
  - intros uid c H. cbn [ex_store_paid st_carts] in H. rewrite lookup_empty in H. discriminate.
  - intros k Hk. cbn [ex_store_paid st_orders st_payments st_nextId] in *.
    rewrite !lookup_singleton_ne by lia. auto.
  - intros uid c H. cbn [ex_store_paid st_carts] in H. rewrite lookup_empty in H. discriminate.
  - intros k p H. cbn [ex_store_paid st_payments st_nextId] in *.
    apply lookup_singleton_Some in H as [_ <-]. cbn. lia.
Qed.

Lemma createOrder_keeps_invariants_witness :
  wf_store (fst (createOrder ex_env ex_plain ex_store)) /\
  carts_ok (fst (createOrder ex_env ex_plain ex_store)) /\
  payments_ok (fst (createOrder ex_env ex_plain ex_store)).
Proof.
  apply (createOrder_keeps_invariants ex_env ex_plain ex_store);
    [exact ex_store_wf|exact ex_store_carts_ok|exact ex_store_payments_ok].
Defined.

Lemma createOrder_then_cancelOrder_witness :
  createOrder ex_env ex_plain ex_store =
    (fst (createOrder ex_env ex_plain ex_store), Success 100) /\
  exists s2, cancelOrder 100 7 (fst (createOrder ex_env ex_plain ex_store)) = (s2, Success 100) /\
    st_products s2 = st_products ex_store.
Proof.
  assert (H : createOrder ex_env ex_plain ex_store =
    (fst (createOrder ex_env ex_plain ex_store), Success 100)) by (vm_compute; reflexivity).
  split; [exact H|]. exact (createOrder_then_cancelOrder ex_env ex_plain ex_store _ 100 H).
Defined.

Lemma cancelOrder_failure_witness :
  cancelOrder 100 8 ex_store_paid = (ex_store_paid, Failure ErrOrderNotFound) /\
  forall o, st_orders ex_store_paid !! 100%nat = Some o -> o_userId o <> 8%nat.
Proof.
  assert (H : cancelOrder 100 8 ex_store_paid = (ex_store_paid, Failure ErrOrderNotFound))
    by (vm_compute; reflexivity).
  split; [exact H|].
  destruct (cancelOrder_failure 100 8 ex_store_paid ex_store_paid ErrOrderNotFound H)
    as [_ [[_ Hn]|(o & _ & _ & [[He _]|[He _]])]]; [exact Hn|discriminate|discriminate].
Defined.

Lemma cancelOrder_twice_witness :
  cancelOrder 100 7 ex_store_paid = (fst (cancelOrder 100 7 ex_store_paid), Success 100) /\
  cancelOrder 100 7 (fst (cancelOrder 100 7 ex_store_paid)) =
    (fst (cancelOrder 100 7 ex_store_paid), Failure ErrAlreadyCancelled).
Proof.
  assert (H : cancelOrder 100 7 ex_store_paid =
    (fst (cancelOrder 100 7 ex_store_paid), Success 100)) by (vm_compute; reflexivity).
  split; [exact H|]. exact (cancelOrder_twice 100 7 ex_store_paid _ H).
Defined.

Lemma cancelOrder_keeps_invariants_witness :
  wf_store (fst (cancelOrder 100 7 ex_store_paid)) /\
  carts_ok (fst (cancelOrder 100 7 ex_store_paid)) /\
  payments_ok (fst (cancelOrder 100 7 ex_store_paid)).
Proof.
  destruct ex_store_paid_invariants as (W & K & P).
  exact (cancelOrder_keeps_invariants 100 7 ex_store_paid W K P).
Defined.

Lemma updateOrderStatus_sets_status_witness :
  st_orders ex_store_paid !! 100%nat = Some ex_paid_order /\
  parse_order_status "shipped" = Some OSShipped /\
  st_orders (fst (updateOrderStatus ex_env 100 (Some "shipped"%string) ex_store_paid))
    !! 100%nat = Some (set_orderStatus OSShipped ex_paid_order) /\
  st_products (fst (updateOrderStatus ex_env 100 (Some "shipped"%string) ex_store_paid)) =
    st_products ex_store_paid /\
  snd (updateOrderStatus ex_env 100 (Some "shipped"%string) ex_store_paid) = Success 100.
Proof.
  assert (Ho : st_orders ex_store_paid !! 100%nat = Some ex_paid_order)
    by (vm_compute; reflexivity).
  assert (Hp : parse_order_status "shipped" = Some OSShipped) by reflexivity.
  assert (H : updateOrderStatus ex_env 100 (Some "shipped"%string) ex_store_paid =
    (fst (updateOrderStatus ex_env 100 (Some "shipped"%string) ex_store_paid),
     snd (updateOrderStatus ex_env 100 (Some "shipped"%string) ex_store_paid)))
    by (vm_compute; reflexivity).
  destruct (updateOrderStatus_sets_status ex_env 100 "shipped" OSShipped ex_store_paid
              ex_paid_order _ _ Ho Hp H) as (H1 & H2 & _ & _ & _ & H6).
  split; [exact Ho|]. split; [exact Hp|]. split; [exact H1|]. split; [exact H2|exact H6].
Defined.

Lemma updateOrderStatus_failure_witness :
  updateOrderStatus ex_env 100 (Some "bogus"%string) ex_store_paid =
    (ex_store_paid, Failure ErrValidation) /\
  parse_order_status "bogus" = None.
Proof.
  assert (H : updateOrderStatus ex_env 100 (Some "bogus"%string) ex_store_paid =
    (ex_store_paid, Failure ErrValidation)) by (vm_compute; reflexivity).
  split; [exact H|].
  destruct (updateOrderStatus_failure ex_env 100 _ ex_store_paid _ _ H)
    as [(He & _)|[(_ & _ & str & Hs & _ & Hp)|(He & _)]]; [discriminate| |discriminate].
  injection Hs as <-. exact Hp.
Defined.

Lemma updateOrderStatus_cancelled_blocks_cancelOrder_witness :
  st_products (fst (updateOrderStatus ex_env 100 (Some "cancelled"%string) ex_store_paid)) =
    st_products ex_store_paid /\
  st_payments (fst (updateOrderStatus ex_env 100 (Some "cancelled"%string) ex_store_paid)) =
    st_payments ex_store_paid /\
  cancelOrder 100 7 (fst (updateOrderStatus ex_env 100 (Some "cancelled"%string) ex_store_paid)) =
    (fst (updateOrderStatus ex_env 100 (Some "cancelled"%string) ex_store_paid),
     Failure ErrAlreadyCancelled).
Proof.
  apply (updateOrderStatus_cancelled_blocks_cancelOrder ex_env 100 ex_store_paid ex_paid_order
           _ (snd (updateOrderStatus ex_env 100 (Some "cancelled"%string) ex_store_paid)));
    vm_compute; reflexivity.
Defined.

Lemma cancel_reopen_cancel_witness :
  exists s3,
    cancelOrder 100 7 (fst (updateOrderStatus ex_env 100 (Some "pending"%string)
                              (fst (cancelOrder 100 7 ex_store_paid)))) = (s3, Success 100) /\
    forall pid, st_products s3 !! pid =
      add_stock (2 * order_qty pid (o_items ex_paid_order)) <$> st_products ex_store_paid !! pid.
Proof.
  apply (cancel_reopen_cancel ex_env 100 7 ex_store_paid ex_paid_order
           (fst (cancelOrder 100 7 ex_store_paid)) _
           (snd (updateOrderStatus ex_env 100 (Some "pending"%string)
                   (fst (cancelOrder 100 7 ex_store_paid)))));
    vm_compute; reflexivity.
Defined.

Lemma processCOD_failure_witness :
  processCOD 100 7 ex_store_paid = (ex_store_paid, Fail AENotCOD) /\
  exists o, st_orders ex_store_paid !! 100%nat = Some o /\ o_paymentMethod o <> "COD"%string.
Proof.
  assert (H : processCOD 100 7 ex_store_paid = (ex_store_paid, Fail AENotCOD))
    by (vm_compute; reflexivity).
  split; [exact H|].
  destruct (processCOD_failure 100 7 ex_store_paid _ _ H)
    as [_ [(He & _)|(_ & o & Ho & _ & Hm)]]; [discriminate|].
  exists o. split; [exact Ho|exact Hm].
Defined.

Lemma createOrder_then_processCOD_witness :
  exists s2 total,
    processCOD 100 7 (fst (createOrder ex_env ex_plain ex_store)) = (s2, Done) /\
    st_payments s2 !! 101%nat = Some (mkPayment 100 7 total "COD" PayPending) /\
    st_orders s2 = st_orders (fst (createOrder ex_env ex_plain ex_store)).
Proof.
  apply (createOrder_then_processCOD ex_env ex_plain ex_store _ 100 ex_store_payments_ok);
    vm_compute; reflexivity.
Defined.

Lemma cancelOrder_then_processCOD_witness :
  exists s2, processCOD 100 7 (fst (cancelOrder 100 7 ex_store_cod)) = (s2, Done) /\
    st_orders s2 !! 100%nat = Some (set_cancelled ex_cod_order) /\
    st_payments s2 !! 101%nat = set_pay_status PayPending <$> st_payments ex_store_cod !! 101%nat.
Proof.
  apply (cancelOrder_then_processCOD 100 7 ex_store_cod _ ex_cod_order 101);
    vm_compute; reflexivity.
Defined.

Lemma order_admin_handlers_keep_invariants_witness :
  (wf_store (fst (updateOrderStatus ex_env 100 (Some "pending"%string) ex_store_paid)) /\
   carts_ok (fst (updateOrderStatus ex_env 100 (Some "pending"%string) ex_store_paid)) /\
   payments_ok (fst (updateOrderStatus ex_env 100 (Some "pending"%string) ex_store_paid))) /\
  (wf_store (fst (processCOD 100 7 ex_store_paid)) /\
   carts_ok (fst (processCOD 100 7 ex_store_paid)) /\
   payments_ok (fst (processCOD 100 7 ex_store_paid))).
Proof.
  destruct ex_store_paid_invariants as (W & K & P).
  exact (order_admin_handlers_keep_invariants ex_env 100 7 _ ex_store_paid W K P).
Defined.

Lemma addToCart_success_witness :
  canonical_id (oid_str 1) = true /\
  addToCart 7 (oid_str 1) (Some 3) ex_store =
    (fst (addToCart 7 (oid_str 1) (Some 3) ex_store), Done) /\
  exists cart1 i item,
    st_carts (fst (addToCart 7 (oid_str 1) (Some 3) ex_store)) !! 7%nat = Some cart1 /\
    findIndex (oid_str 1) (cart_items cart1) = Some (i, item) /\ ci_quantity item = 5.
Proof.
  assert (Hc : canonical_id (oid_str 1) = true) by (vm_compute; reflexivity).
  assert (H : addToCart 7 (oid_str 1) (Some 3) ex_store =
                (fst (addToCart 7 (oid_str 1) (Some 3) ex_store), Done))
    by (vm_compute; reflexivity).
  split; [exact Hc|]. split; [exact H|].
  destruct (addToCart_success 7 (oid_str 1) (Some 3) ex_store _ Hc H)
    as (pid & product & cart1 & _ & _ & _ & Hc1 & (i & item & Hf & _ & Hq & _) & _).
  exists cart1, i, item. split; [exact Hc1|]. split; [exact Hf|].
  rewrite Hq. vm_compute. reflexivity.
Defined.

Lemma addToCart_failure_witness :
  addToCart 7 (oid_str 1) (Some 0) ex_store_nocart =
    (fst (addToCart 7 (oid_str 1) (Some 0) ex_store_nocart), Fail AEValidation) /\
  (st_carts (fst (addToCart 7 (oid_str 1) (Some 0) ex_store_nocart)) =
     st_carts ex_store_nocart \/
   (st_carts ex_store_nocart !! 7%nat = None /\
    st_carts (fst (addToCart 7 (oid_str 1) (Some 0) ex_store_nocart)) =
      <[7%nat := mkCart 7 [] 0%Q]> (st_carts ex_store_nocart))).
Proof.
  assert (H : addToCart 7 (oid_str 1) (Some 0) ex_store_nocart =
    (fst (addToCart 7 (oid_str 1) (Some 0) ex_store_nocart), Fail AEValidation))
    by (vm_compute; reflexivity).
  split; [exact H|].
  destruct (addToCart_failure 7 (oid_str 1) (Some 0) ex_store_nocart _ _ H)
    as (_ & _ & _ & _ & _ & Hc).
  exact Hc.
Defined.

Lemma addToCart_duplicate_line_witness :
  exists cart1 price,
    st_carts (fst (addToCart 7 ex_kbd_upper (Some 1) ex_store_kbd)) !! 7%nat = Some cart1 /\
    cart_items cart1 = [mkCartItem 10 1 40%Q] ++ [mkCartItem 10 1 price] /\
    ~ NoDup (map ci_productId (cart_items cart1)).
Proof.
  apply (addToCart_duplicate_line 7 ex_kbd_upper (Some 1) ex_store_kbd _ 10
           (mkCart 7 [mkCartItem 10 1 40%Q] 40%Q)).
  - vm_compute. reflexivity.
  - reflexivity.
  - left. reflexivity.
  - constructor; [|constructor]. intros Hs. vm_compute in Hs. discriminate Hs.
  - vm_compute. reflexivity.
Defined.

Lemma mergeCart_lines_witness :
  exists cart1, st_carts (fst (mergeCart 7 (Some ex_guest) ex_store_nocart)) !! 7%nat = Some cart1 /\
    cart_totalPrice cart1 = cart_total (cart_items cart1) /\
    forall it, In it (cart_items cart1) -> 1 <= ci_quantity it /\
      (In it (match st_carts ex_store_nocart !! 7%nat with
              | Some c => cart_items c | None => [] end) \/
       exists product, st_products ex_store_nocart !! ci_productId it = Some product /\
         p_isActive product = true /\ ci_quantity it <= p_stock product /\
         ci_price it = effective_price product).
Proof.
  apply (mergeCart_lines 7 ex_guest ex_store_nocart _). vm_compute. reflexivity.
Defined.

Lemma getCart_then_checkout_witness :
  exists plan, checkout_validate ex_plain (fst (getCart 7 ex_store_stale)) = ROk plan /\
    (pl_total plan + pl_discount plan == cart_totalPrice (pl_cart plan))%Q.
Proof.
  assert (H : getCart 7 ex_store_stale = (fst (getCart 7 ex_store_stale), Done))
    by (vm_compute; reflexivity).
  destruct (checkout_validate ex_plain (fst (getCart 7 ex_store_stale))) as [plan|e] eqn:Hv.
  - exists plan. split; [reflexivity|].
    exact (getCart_then_checkout 7 ex_store_stale _ ex_plain plan H eq_refl Hv).
  - vm_compute in Hv. discriminate.
Defined.

Lemma cart_handlers_keep_invariants_witness :
  (forall productId quantity,
     wf_store (fst (addToCart 7 productId quantity ex_store)) /\
     carts_shape (fst (addToCart 7 productId quantity ex_store)) /\
     payments_ok (fst (addToCart 7 productId quantity ex_store))) /\
  (forall guestCartItems,
     wf_store (fst (mergeCart 7 guestCartItems ex_store)) /\
     carts_shape (fst (mergeCart 7 guestCartItems ex_store)) /\
     payments_ok (fst (mergeCart 7 guestCartItems ex_store))) /\
  (wf_store (fst (getCart 7 ex_store)) /\ carts_shape (fst (getCart 7 ex_store)) /\
   payments_ok (fst (getCart 7 ex_store))).
Proof.
  exact (cart_handlers_keep_invariants 7 ex_store ex_store_wf
           (carts_ok_shape _ ex_store_carts_ok) ex_store_payments_ok).
Defined.

Lemma canonical_ids_keep_carts_ok_witness :
  (forall productId quantity, canonical_id productId = true ->
     carts_ok (fst (addToCart 7 productId quantity ex_store))) /\
  (forall guests, Forall (fun g => canonical_id (g_productId g) = true) guests ->
     carts_ok (fst (mergeCart 7 (Some guests) ex_store))) /\
  carts_ok (fst (getCart 7 ex_store)).
Proof. exact (canonical_ids_keep_carts_ok 7 ex_store ex_store_carts_ok). Defined.
